(** * i915 load / unload path (shared-core/i915_init.c)

    A shallow embedding of the device bring-up code of the i915 DRM
    driver: the AGP capacity probe, the hardware status page set-up and
    tear-down, the mode-setting bring-up sequence with its goto-label
    rollback, and the driver load / unload entry points.

    Integers of the C code are [Z]; [unsigned long] arithmetic is wrapped
    explicitly at [BITS_PER_LONG].  Nullable pointers are [option]s.
    Calls into the rest of the DRM core are recorded in a trace, and the
    answers of fallible collaborators are read from an oracle record. *)

From Stdlib Require Import ZArith List Bool Lia String.
Import ListNotations.
Local Open Scope Z_scope.

(** ** Constants taken from headers that are not part of this file *)

(** The macros of i915_drv.h and the PCI ids that [i915_probe_agp]
    switches on.  Their values are parameters of the development. *)
Record i915_drv_h : Type := {
  BITS_PER_LONG : Z;
  INTEL_GMCH_CTRL : Z;
  INTEL_GMCH_MEM_MASK : Z;
  INTEL_GMCH_MEM_64M : Z;
  INTEL_855_GMCH_GMS_MASK : Z;
  INTEL_855_GMCH_GMS_DISABLED : Z;
  INTEL_855_GMCH_GMS_STOLEN_1M : Z;
  INTEL_855_GMCH_GMS_STOLEN_4M : Z;
  INTEL_855_GMCH_GMS_STOLEN_8M : Z;
  INTEL_855_GMCH_GMS_STOLEN_16M : Z;
  INTEL_855_GMCH_GMS_STOLEN_32M : Z;
  INTEL_915G_GMCH_GMS_STOLEN_48M : Z;
  INTEL_915G_GMCH_GMS_STOLEN_64M : Z;
  PCI_DEVICE_ID_INTEL_82830_CGC : Z;
  PCI_DEVICE_ID_INTEL_82845G_IG : Z;
  PCI_DEVICE_ID_INTEL_82855GM_IG : Z;
  PCI_DEVICE_ID_INTEL_82865_IG : Z;
  I915_MAX_VALIDATE_BUFFERS : Z
}.

(** The case labels of the stolen-memory switch, in source order. *)
Definition gms_case_labels (K : i915_drv_h) : list Z :=
  [ INTEL_855_GMCH_GMS_STOLEN_1M K; INTEL_855_GMCH_GMS_STOLEN_4M K;
    INTEL_855_GMCH_GMS_STOLEN_8M K; INTEL_855_GMCH_GMS_STOLEN_16M K;
    INTEL_855_GMCH_GMS_STOLEN_32M K; INTEL_915G_GMCH_GMS_STOLEN_48M K;
    INTEL_915G_GMCH_GMS_STOLEN_64M K; INTEL_855_GMCH_GMS_DISABLED K ].

Fixpoint distinctb (l : list Z) : bool :=
  match l with
  | [] => true
  | x :: r => negb (existsb (Z.eqb x) r) && distinctb r
  end.

(** What a C compiler demands of the header for the file to build: a
    32- or 64-bit [unsigned long], and pairwise distinct case labels. *)
Definition header_ok (K : i915_drv_h) : bool :=
  ((BITS_PER_LONG K =? 32) || (BITS_PER_LONG K =? 64))
  && distinctb (gms_case_labels K).

(** Platform constants (errno.h, x86 page size). *)
Definition ENOMEM : Z := 12.
Definition ENODEV : Z := 19.
Definition EINVAL : Z := 22.
Definition PAGE_SIZE : Z := 4096.

Definition MiB : Z := 1024 * 1024.

(** Truncation to the 32 bits of an MMIO register. *)
Definition u32 (x : Z) : Z := x mod 2 ^ 32.

(** ** PCI device identity *)

Record pci_dev : Type := {
  device : Z;
  resource_start : Z -> Z;
  resource_len : Z -> Z
}.

(** A PCI function with its configuration space. *)
Record pci_config : Type := { config_word : Z -> Z }.

Section Prober.

Context (K : i915_drv_h).

(** [unsigned long] and [u16] truncation. *)
Definition ulong (x : Z) : Z := x mod 2 ^ BITS_PER_LONG K.
Definition u16 (x : Z) : Z := x mod 2 ^ 16.

(** The four case labels of [switch (pdev->device)]. *)
Definition legacy_device (pdev : pci_dev) : bool :=
  (device pdev =? PCI_DEVICE_ID_INTEL_82830_CGC K)
  || (device pdev =? PCI_DEVICE_ID_INTEL_82845G_IG K)
  || (device pdev =? PCI_DEVICE_ID_INTEL_82855GM_IG K)
  || (device pdev =? PCI_DEVICE_ID_INTEL_82865_IG K).

(** The first switch of [i915_probe_agp]: the aperture size. *)
Definition probe_aperture (pdev : pci_dev) (tmp : Z) : Z :=
  let aperture_size := 1024 * 1024 in
  if legacy_device pdev then
    if Z.land tmp (INTEL_GMCH_MEM_MASK K) =? INTEL_GMCH_MEM_64M K
    then ulong (aperture_size * 64)
    else ulong (aperture_size * 128)
  else
    (* 9xx supports large sizes, just look at the length *)
    ulong (resource_len pdev 2).

(** [i915_probe_agp].  [bridge_dev] is what
    [pci_get_bus_and_slot(0, PCI_DEVFN(0,0))] returned.  The two out
    parameters are passed in with the caller's current contents and
    returned with what the function leaves in them; the first component
    is the [int] result. *)
Definition i915_probe_agp (bridge_dev : option pci_config) (pdev : pci_dev)
    (aperture_size preallocated_size : Z) : Z * Z * Z :=
  match bridge_dev with
  | None => (-1, aperture_size, preallocated_size)
  | Some bridge =>
    let tmp := u16 (config_word bridge (INTEL_GMCH_CTRL K)) in
    let aperture_size := probe_aperture pdev tmp in
    let preallocated_size := 1024 * 1024 in
    let overhead := ulong (aperture_size / 1024 + 4096) in
    let gms := Z.land tmp (INTEL_855_GMCH_GMS_MASK K) in
    let done (preallocated_size : Z) :=
      (0, aperture_size, ulong (preallocated_size - overhead)) in
    if gms =? INTEL_855_GMCH_GMS_STOLEN_1M K then
      done preallocated_size (* 1M already *)
    else if gms =? INTEL_855_GMCH_GMS_STOLEN_4M K then
      done (ulong (preallocated_size * 4))
    else if gms =? INTEL_855_GMCH_GMS_STOLEN_8M K then
      done (ulong (preallocated_size * 8))
    else if gms =? INTEL_855_GMCH_GMS_STOLEN_16M K then
      done (ulong (preallocated_size * 16))
    else if gms =? INTEL_855_GMCH_GMS_STOLEN_32M K then
      done (ulong (preallocated_size * 32))
    else if gms =? INTEL_915G_GMCH_GMS_STOLEN_48M K then
      done (ulong (preallocated_size * 48))
    else if gms =? INTEL_915G_GMCH_GMS_STOLEN_64M K then
      done (ulong (preallocated_size * 64))
    else if gms =? INTEL_855_GMCH_GMS_DISABLED K then
      (-1, aperture_size, preallocated_size)
    else
      (-1, aperture_size, preallocated_size)
  end.

End Prober.

Arguments ulong _ _ : simpl never.
Arguments u16 _ : simpl never.
Arguments u32 _ : simpl never.
Arguments probe_aperture _ _ _ : simpl never.
Arguments i915_probe_agp _ _ _ _ _ : simpl never.

(** A header instance: the GMS field in bits 4..6 of the control word,
    bit 0 selecting the 64 MiB aperture. *)
Definition sample_header : i915_drv_h := {|
  BITS_PER_LONG := 64;
  INTEL_GMCH_CTRL := 0x52;
  INTEL_GMCH_MEM_MASK := 0x1;
  INTEL_GMCH_MEM_64M := 0x1;
  INTEL_855_GMCH_GMS_MASK := 0x70;
  INTEL_855_GMCH_GMS_DISABLED := 0x00;
  INTEL_855_GMCH_GMS_STOLEN_1M := 0x10;
  INTEL_855_GMCH_GMS_STOLEN_4M := 0x20;
  INTEL_855_GMCH_GMS_STOLEN_8M := 0x30;
  INTEL_855_GMCH_GMS_STOLEN_16M := 0x40;
  INTEL_855_GMCH_GMS_STOLEN_32M := 0x50;
  INTEL_915G_GMCH_GMS_STOLEN_48M := 0x60;
  INTEL_915G_GMCH_GMS_STOLEN_64M := 0x70;
  PCI_DEVICE_ID_INTEL_82830_CGC := 0x3577;
  PCI_DEVICE_ID_INTEL_82845G_IG := 0x2562;
  PCI_DEVICE_ID_INTEL_82855GM_IG := 0x3582;
  PCI_DEVICE_ID_INTEL_82865_IG := 0x2572;
  I915_MAX_VALIDATE_BUFFERS := 4096
|}.

Definition bridge_with (gmch_ctrl : Z) : pci_config :=
  {| config_word := fun _ => gmch_ctrl |}.

Definition sample_pdev (id bar2_len : Z) : pci_dev :=
  {| device := id;
     resource_start := fun _ => 0xe0000000;
     resource_len := fun n => if n =? 2 then bar2_len else 0x80000 |}.


(** ** Device state *)

(** Chip-generation predicates ([IS_G33(dev)] and friends are macros over
    the device id, defined in i915_drv.h) and the driver feature bit. *)
Record drm_identity : Type := {
  pdev : pci_dev;
  IS_G33 : bool;
  IS_MOBILE : bool;
  IS_I9XX : bool;
  IS_I965G : bool;
  DRIVER_MODESET : bool;   (* drm_core_check_feature(dev, DRIVER_MODESET) *)
  agp_base : Z             (* dev->agp->base *)
}.

Record drm_dma_handle : Type := { vaddr : Z; busaddr : Z }.

Record drm_memrange_node : Type := { start : Z }.

Record drm_map : Type := {
  offset : Z; size : Z; type : Z; flags : Z; mtrr : Z;
  handle : option Z
}.

Definition with_handle (h : option Z) (m : drm_map) : drm_map :=
  {| offset := offset m; size := size m; type := type m;
     flags := flags m; mtrr := mtrr m; handle := h |}.

(** The fields of [struct drm_i915_private] this file reads or writes.
    The back pointer [dev], and the list heads, timer and work items of
    [mm], are only initialised here and carry no value of their own. *)
Record drm_i915_private : Type := {
  cursor_needs_physical : bool;
  stolen_base : Z;
  mmiobase : Z;
  mmiolen : Z;
  mmio_map : option Z;
  next_gem_seqno : Z;                        (* mm.next_gem_seqno *)
  vram : option (Z * Z);                     (* memrange over [start, start+size) *)
  status_page_dmah : option drm_dma_handle;
  hws_vaddr : option Z;
  dma_status_page : Z;
  hws : option drm_memrange_node;
  hws_agpoffset : Z;
  hws_map : drm_map;
  allow_batchbuffer : Z;
  max_validate_buffers : Z;
  wq : option Z
}.

(** [memset(dev_priv, 0, sizeof(struct drm_i915_private))]. *)
Definition zeroed_private : drm_i915_private := {|
  cursor_needs_physical := false; stolen_base := 0;
  mmiobase := 0; mmiolen := 0; mmio_map := None; next_gem_seqno := 0;
  vram := None; status_page_dmah := None; hws_vaddr := None;
  dma_status_page := 0; hws := None; hws_agpoffset := 0;
  hws_map := {| offset := 0; size := 0; type := 0; flags := 0; mtrr := 0;
                handle := None |};
  allow_batchbuffer := 0; max_validate_buffers := 0; wq := None
|}.

(** Field assignments [dev_priv->f = v]. *)
Definition set_cursor_needs_physical v p :=
  let '(Build_drm_i915_private a b c d e f g h i j k l m n o q) := p in
  Build_drm_i915_private v b c d e f g h i j k l m n o q.
Definition set_stolen_base v p :=
  let '(Build_drm_i915_private a b c d e f g h i j k l m n o q) := p in
  Build_drm_i915_private a v c d e f g h i j k l m n o q.
Definition set_mmiobase v p :=
  let '(Build_drm_i915_private a b c d e f g h i j k l m n o q) := p in
  Build_drm_i915_private a b v d e f g h i j k l m n o q.
Definition set_mmiolen v p :=
  let '(Build_drm_i915_private a b c d e f g h i j k l m n o q) := p in
  Build_drm_i915_private a b c v e f g h i j k l m n o q.
Definition set_mmio_map v p :=
  let '(Build_drm_i915_private a b c d e f g h i j k l m n o q) := p in
  Build_drm_i915_private a b c d v f g h i j k l m n o q.
Definition set_next_gem_seqno v p :=
  let '(Build_drm_i915_private a b c d e f g h i j k l m n o q) := p in
  Build_drm_i915_private a b c d e v g h i j k l m n o q.
Definition set_vram v p :=
  let '(Build_drm_i915_private a b c d e f g h i j k l m n o q) := p in
  Build_drm_i915_private a b c d e f v h i j k l m n o q.
Definition set_status_page_dmah v p :=
  let '(Build_drm_i915_private a b c d e f g h i j k l m n o q) := p in
  Build_drm_i915_private a b c d e f g v i j k l m n o q.
Definition set_hws_vaddr v p :=
  let '(Build_drm_i915_private a b c d e f g h i j k l m n o q) := p in
  Build_drm_i915_private a b c d e f g h v j k l m n o q.
Definition set_dma_status_page v p :=
  let '(Build_drm_i915_private a b c d e f g h i j k l m n o q) := p in
  Build_drm_i915_private a b c d e f g h i v k l m n o q.
Definition set_hws v p :=
  let '(Build_drm_i915_private a b c d e f g h i j k l m n o q) := p in
  Build_drm_i915_private a b c d e f g h i j v l m n o q.
Definition set_hws_agpoffset v p :=
  let '(Build_drm_i915_private a b c d e f g h i j k l m n o q) := p in
  Build_drm_i915_private a b c d e f g h i j k v m n o q.
Definition set_hws_map v p :=
  let '(Build_drm_i915_private a b c d e f g h i j k l m n o q) := p in
  Build_drm_i915_private a b c d e f g h i j k l v n o q.
Definition set_allow_batchbuffer v p :=
  let '(Build_drm_i915_private a b c d e f g h i j k l m n o q) := p in
  Build_drm_i915_private a b c d e f g h i j k l m v o q.
Definition set_max_validate_buffers v p :=
  let '(Build_drm_i915_private a b c d e f g h i j k l m n o q) := p in
  Build_drm_i915_private a b c d e f g h i j k l m n v q.
Definition set_wq v p :=
  let '(Build_drm_i915_private a b c d e f g h i j k l m n o q) := p in
  Build_drm_i915_private a b c d e f g h i j k l m n o v.

(** Modelled from the spec: the register ids of the single MMIO write
    [writeRegister(device, registerId, value)]; the offsets that
    i915_drv.h gives [PRB0_CTL] and [HWS_PGA] are not needed, only that
    they name two different registers. *)
Inductive reg : Type := PRB0_CTL | HWS_PGA.

Definition reg_eqb (a b : reg) : bool :=
  match a, b with
  | PRB0_CTL, PRB0_CTL | HWS_PGA, HWS_PGA => true
  | _, _ => false
  end.

(** ** Calls that leave this file *)

(** Each call into the DRM core, the kernel or the rest of the driver,
    with the arguments and the answer that matter here. *)
Inductive event : Type :=
| E_write (r : reg) (v : Z)                         (* I915_WRITE *)
| E_drm_pci_alloc (res : option drm_dma_handle)
| E_drm_pci_free (h : drm_dma_handle)
| E_memrange_search_free (res : option drm_memrange_node)
| E_memrange_get_block (res : option drm_memrange_node)
| E_memrange_put_block (n : drm_memrange_node)
| E_core_ioremap (res : option Z)
| E_core_ioremapfree (h : Z)
| E_memset_page (va : option Z)
| E_memrange_init (base sz : Z)
| E_memrange_takedown
| E_gem_do_init (first last : Z)
| E_gem_init_ringbuffer (ret : Z)
| E_gem_cleanup_ringbuffer
| E_mutex_init_cmdbuf
| E_create_workqueue (res : option Z)
| E_destroy_workqueue (w : option Z)
| E_init_bios (ret : Z)
| E_modeset_init
| E_initial_config
| E_modeset_cleanup
| E_kstrdup (res : option string)
| E_kfree_devname
| E_irq_install (ret : Z)
| E_irq_uninstall
| E_drm_alloc (ok : bool)
| E_drm_free
| E_read_stolen_base
| E_addmap (base len ret : Z)
| E_rmmap (map : option Z)
| E_struct_mutex_lock
| E_struct_mutex_unlock
| E_gem_lastclose.

(** Answers of the fallible collaborators for one load. *)
Record collaborators : Type := {
  r_bridge_dev : option pci_config;          (* pci_get_bus_and_slot *)
  r_drm_pci_alloc : option drm_dma_handle;
  r_search_free : option drm_memrange_node;
  r_get_block : option drm_memrange_node;
  r_ioremap : option Z;
  r_init_ringbuffer : Z;
  r_create_workqueue : option Z;
  r_init_bios : Z;
  r_kstrdup : option string;
  r_irq_install : Z;
  r_drm_alloc : bool;
  r_stolen_base : Z;                         (* config dword 0x5C *)
  r_addmap : Z * option Z;                   (* result, installed map *)
  r_uninit_locals : Z * Z                    (* stack contents under the two
                                                uninitialised locals of
                                                i915_load_modeset_init *)
}.

(** [struct drm_device] (the mutable part) and the MMIO registers. *)
Record machine : Type := {
  dev_private : option drm_i915_private;
  devname : option string;
  fb_base : Z;                               (* dev->mode_config.fb_base *)
  counters : Z;
  mmio : reg -> Z
}.

Definition set_dev_private v (m : machine) : machine :=
  {| dev_private := v; devname := devname m; fb_base := fb_base m;
     counters := counters m; mmio := mmio m |}.
Definition set_devname v (m : machine) : machine :=
  {| dev_private := dev_private m; devname := v; fb_base := fb_base m;
     counters := counters m; mmio := mmio m |}.
Definition set_fb_base v (m : machine) : machine :=
  {| dev_private := dev_private m; devname := devname m; fb_base := v;
     counters := counters m; mmio := mmio m |}.
Definition set_counters v (m : machine) : machine :=
  {| dev_private := dev_private m; devname := devname m; fb_base := fb_base m;
     counters := v; mmio := mmio m |}.
Definition set_mmio v (m : machine) : machine :=
  {| dev_private := dev_private m; devname := devname m; fb_base := fb_base m;
     counters := counters m; mmio := v |}.

(** ** A state monad with a trace and a fault outcome *)

(** A run ends in [Done] with a result, or in [Oops]: a NULL-pointer
    dereference, the code having read a field through [dev_priv] while
    [dev->dev_private] was NULL.  Either way it carries the machine it
    left behind and the calls it made, oldest first. *)
Inductive outcome (A : Type) : Type :=
| Done (a : A) (m : machine) (evs : list event)
| Oops (m : machine) (evs : list event).
Arguments Done {A} a m evs.
Arguments Oops {A} m evs.

Definition M (A : Type) : Type := machine -> outcome A.

Definition returns {A} (a : A) : M A := fun m => Done a m [].

Definition bind {A B} (c : M A) (k : A -> M B) : M B :=
  fun m => match c m with
           | Done a m1 e1 =>
             match k a m1 with
             | Done b m2 e2 => Done b m2 (e1 ++ e2)
             | Oops m2 e2 => Oops m2 (e1 ++ e2)
             end
           | Oops m1 e1 => Oops m1 e1
           end.

Declare Scope drv_scope.
Delimit Scope drv_scope with drv.
Notation "x <- c ;; k" := (bind c (fun x => k))
  (at level 61, c at next level, right associativity) : drv_scope.
Notation "c ;; k" := (bind c (fun _ => k))
  (at level 61, right associativity) : drv_scope.
Local Open Scope drv_scope.

Definition emit (e : event) : M unit := fun m => Done tt m [e].

(** Read [dev_priv->...]: faults when [dev->dev_private] is NULL. *)
Definition priv : M drm_i915_private :=
  fun m => match dev_private m with
           | Some p => Done p m []
           | None => Oops m []
           end.

(** [dev_priv->f = v]. *)
Definition assign (upd : drm_i915_private -> drm_i915_private) : M unit :=
  p <- priv ;; fun m => Done tt (set_dev_private (Some (upd p)) m) [].

(** Modelled from the spec: [I915_WRITE(reg, val)] is the single 32-bit
    MMIO write [writeRegister(device, registerId, value)]; the macro of
    i915_drv.h reaches the register window through the local [dev_priv]
    ([dev_priv->mmio_map]), so it needs the private state. *)
Definition I915_WRITE (r : reg) (val : Z) : M unit :=
  _ <- priv ;;
  fun m =>
    let v := u32 val in
    Done tt (set_mmio (fun r' => if reg_eqb r' r then v else mmio m r') m)
         [E_write r v].

Definition update (f : machine -> machine) : M unit :=
  fun m => Done tt (f m) [].

Definition skip : M unit := returns tt.

Section Driver.

Context (K : i915_drv_h) (id : drm_identity) (env : collaborators).

(** *** i915_init_hwstatus *)

(** The labels [out:] and [out_free:]; the latter is empty in the source
    (its body is the comment "free hws") and falls through. *)
Definition out (ret : Z) : M Z := returns ret.

Definition out_free (ret : Z) : M Z :=
  (* free hws *)
  out ret.

(** The common tail: [memset(dev_priv->hws_vaddr, 0, PAGE_SIZE); return 0]. *)
Definition hwstatus_enabled : M Z :=
  dev_priv <- priv ;;
  emit (E_memset_page (hws_vaddr dev_priv)) ;;
  returns 0.

Definition i915_init_hwstatus : M Z :=
  if negb (IS_G33 id) then
    emit (E_drm_pci_alloc (r_drm_pci_alloc env)) ;;
    assign (set_status_page_dmah (r_drm_pci_alloc env)) ;;
    dev_priv <- priv ;;
    match status_page_dmah dev_priv with
    | None => out (- ENOMEM)
    | Some dmah =>
      assign (set_hws_vaddr (Some (vaddr dmah))) ;;
      assign (set_dma_status_page (busaddr dmah)) ;;
      dev_priv <- priv ;;
      I915_WRITE HWS_PGA (dma_status_page dev_priv) ;;
      hwstatus_enabled
    end
  else
    _ <- priv ;;
    emit (E_memrange_search_free (r_search_free env)) ;;
    match r_search_free env with
    | None => out (- ENOMEM)
    | Some free_space =>
      emit (E_memrange_get_block (r_get_block env)) ;;
      assign (set_hws (r_get_block env)) ;;
      dev_priv <- priv ;;
      match hws dev_priv with
      | None => out (- EINVAL)
      | Some blk =>
        assign (set_hws_agpoffset (start blk)) ;;
        assign (set_hws_map
                  {| offset := ulong K (agp_base id + start blk);
                     size := PAGE_SIZE; type := 0; flags := 0; mtrr := 0;
                     handle := handle (hws_map dev_priv) |}) ;;
        emit (E_core_ioremap (r_ioremap env)) ;;
        assign (fun p => set_hws_map (with_handle (r_ioremap env) (hws_map p)) p) ;;
        dev_priv <- priv ;;
        match handle (hws_map dev_priv) with
        | None =>
          assign (set_hws_agpoffset 0) ;;
          out_free (- ENOMEM)
        | Some h =>
          assign (set_hws_vaddr (Some h)) ;;
          dev_priv <- priv ;;
          I915_WRITE HWS_PGA (hws_agpoffset dev_priv) ;;
          hwstatus_enabled
        end
      end
    end.

(** *** i915_cleanup_hwstatus *)

Definition i915_cleanup_hwstatus : M unit :=
  dev_priv <- priv ;;
  (if negb (IS_G33 id) then
     match status_page_dmah dev_priv with
     | Some dmah => emit (E_drm_pci_free dmah)
     | None => skip
     end
   else
     (match handle (hws_map dev_priv) with
      | Some h => emit (E_core_ioremapfree h)
      | None => skip
      end) ;;
     (match hws dev_priv with
      | Some blk => emit (E_memrange_put_block blk)
      | None => skip
      end)) ;;
  I915_WRITE HWS_PGA 0x1ffff000.

(** *** i915_load_modeset_init *)

(** The rollback labels, each falling through to the next. *)
Definition destroy_ringbuffer (ret : Z) : M Z :=
  emit E_gem_cleanup_ringbuffer ;;
  out ret.

Definition destroy_hws (ret : Z) : M Z :=
  i915_cleanup_hwstatus ;;
  destroy_ringbuffer ret.

Definition destroy_wq (ret : Z) : M Z :=
  dev_priv <- priv ;;
  emit (E_destroy_workqueue (wq dev_priv)) ;;
  destroy_hws ret.

Definition modeset_cleanup (ret : Z) : M Z :=
  emit E_modeset_cleanup ;;
  destroy_wq ret.

Definition i915_load_modeset_init : M Z :=
  let '(agp_size, prealloc_size) := r_uninit_locals env in
  (* the int result of the probe is dropped *)
  let '(_, agp_size, prealloc_size) :=
    i915_probe_agp K (r_bridge_dev env) (pdev id) agp_size prealloc_size in
  (* Basic memrange allocator for stolen space (aka vram) *)
  assign (set_vram (Some (0, prealloc_size))) ;;
  emit (E_memrange_init 0 prealloc_size) ;;
  (* Let GEM Manage from end of prealloc space to end of aperture *)
  emit (E_gem_do_init prealloc_size agp_size) ;;
  emit (E_gem_init_ringbuffer (r_init_ringbuffer env)) ;;
  let ret := r_init_ringbuffer env in
  if negb (ret =? 0) then out ret else
  ret <- i915_init_hwstatus ;;
  if negb (ret =? 0) then destroy_ringbuffer ret else
  assign (set_allow_batchbuffer 1) ;;
  assign (set_max_validate_buffers (I915_MAX_VALIDATE_BUFFERS K)) ;;
  emit E_mutex_init_cmdbuf ;;
  emit (E_create_workqueue (r_create_workqueue env)) ;;
  assign (set_wq (r_create_workqueue env)) ;;
  dev_priv <- priv ;;
  match wq dev_priv with
  | None => destroy_hws (- EINVAL)
  | Some _ =>
    emit (E_init_bios (r_init_bios env)) ;;
    let ret := r_init_bios env in
    if negb (ret =? 0) then destroy_wq (- ENODEV) else
    emit E_modeset_init ;;
    emit E_initial_config ;;
    emit (E_kstrdup (r_kstrdup env)) ;;
    update (set_devname (r_kstrdup env)) ;;
    match r_kstrdup env with
    | None => modeset_cleanup (- ENOMEM)
    | Some _ =>
      emit (E_irq_install (r_irq_install env)) ;;
      let ret := r_irq_install env in
      if negb (ret =? 0) then
        emit E_kfree_devname ;;
        modeset_cleanup ret
      else returns 0
    end
  end.

(** *** i915_driver_load *)

Definition free_priv (ret : Z) : M Z :=
  emit E_drm_free ;;
  returns ret.

Definition out_rmmap (ret : Z) : M Z :=
  dev_priv <- priv ;;
  emit (E_rmmap (mmio_map dev_priv)) ;;
  free_priv ret.

(** From [drm_addmap] for the register window to the end of the function. *)
Definition load_map_registers : M Z :=
  dev_priv <- priv ;;
  let ret := fst (r_addmap env) in
  emit (E_addmap (mmiobase dev_priv) (mmiolen dev_priv) ret) ;;
  if negb (ret =? 0) then free_priv ret else
  assign (set_mmio_map (snd (r_addmap env))) ;;
  assign (set_next_gem_seqno 1) ;;
  if DRIVER_MODESET id then
    ret <- i915_load_modeset_init ;;
    if ret <? 0 then out_rmmap ret else returns 0
  else returns 0.

(** The statistics slots [dev->types[6..9]] are set to constants and
    never read here; [dev->counters] is kept. *)
Definition i915_driver_load : M Z :=
  emit (E_drm_alloc (r_drm_alloc env)) ;;
  if negb (r_drm_alloc env) then returns (- ENOMEM) else
  update (set_dev_private (Some zeroed_private)) ;;
  (* i915 has 4 more counters *)
  update (fun m => set_counters (counters m + 4) m) ;;
  assign (set_cursor_needs_physical (IS_MOBILE id || IS_I9XX id)) ;;
  (if IS_I965G id || IS_G33 id
   then assign (set_cursor_needs_physical false) else skip) ;;
  (if IS_I9XX id
   then emit E_read_stolen_base ;; assign (set_stolen_base (r_stolen_base env))
   else skip) ;;
  if IS_I9XX id then
    assign (set_mmiobase (resource_start (pdev id) 0)) ;;
    assign (set_mmiolen (resource_len (pdev id) 0)) ;;
    update (set_fb_base (Z.land (resource_start (pdev id) 2) 0xff000000)) ;;
    load_map_registers
  else if negb (resource_start (pdev id) 1 =? 0) then
    assign (set_mmiobase (resource_start (pdev id) 1)) ;;
    assign (set_mmiolen (resource_len (pdev id) 1)) ;;
    update (set_fb_base (Z.land (resource_start (pdev id) 0) 0xff000000)) ;;
    load_map_registers
  else
    free_priv (- ENODEV).

(** *** i915_driver_unload *)

Definition i915_driver_unload : M Z :=
  I915_WRITE PRB0_CTL 0 ;;
  (if DRIVER_MODESET id then
     emit E_irq_uninstall ;;
     emit E_modeset_cleanup ;;
     dev_priv <- priv ;;
     emit (E_destroy_workqueue (wq dev_priv))
   else skip) ;;
  i915_cleanup_hwstatus ;;
  (if DRIVER_MODESET id then
     emit E_struct_mutex_lock ;;
     emit E_gem_cleanup_ringbuffer ;;
     emit E_struct_mutex_unlock ;;
     assign (set_vram None) ;;
     emit E_memrange_takedown ;;
     emit E_gem_lastclose
   else skip) ;;
  dev_priv <- priv ;;
  emit (E_rmmap (mmio_map dev_priv)) ;;
  emit E_drm_free ;;
  update (set_dev_private None) ;;
  returns 0.

End Driver.

(** ** Resources, as seen in a trace *)

Inductive resource : Type :=
| R_private | R_mmio_map | R_vram | R_ring | R_dma_page | R_stolen_block
| R_hws_mapping | R_workqueue | R_modeset | R_devname | R_irq.

Definition resource_eq_dec (a b : resource) : {a = b} + {a <> b}.
Proof. decide equality. Defined.

(** The resource a call hands to the driver, if it succeeded. *)
Definition acquires (e : event) : option resource :=
  match e with
  | E_drm_alloc true => Some R_private
  | E_addmap _ _ ret => if ret =? 0 then Some R_mmio_map else None
  | E_memrange_init _ _ => Some R_vram
  | E_gem_init_ringbuffer ret => if ret =? 0 then Some R_ring else None
  | E_drm_pci_alloc (Some _) => Some R_dma_page
  | E_memrange_get_block (Some _) => Some R_stolen_block
  | E_core_ioremap (Some _) => Some R_hws_mapping
  | E_create_workqueue (Some _) => Some R_workqueue
  | E_modeset_init => Some R_modeset
  | E_kstrdup (Some _) => Some R_devname
  | E_irq_install ret => if ret =? 0 then Some R_irq else None
  | _ => None
  end.

(** The resource a call gives back. *)
Definition releases (e : event) : option resource :=
  match e with
  | E_drm_free => Some R_private
  | E_rmmap _ => Some R_mmio_map
  | E_memrange_takedown => Some R_vram
  | E_gem_cleanup_ringbuffer => Some R_ring
  | E_drm_pci_free _ => Some R_dma_page
  | E_memrange_put_block _ => Some R_stolen_block
  | E_core_ioremapfree _ => Some R_hws_mapping
  | E_destroy_workqueue _ => Some R_workqueue
  | E_modeset_cleanup => Some R_modeset
  | E_kfree_devname => Some R_devname
  | E_irq_uninstall => Some R_irq
  | _ => None
  end.

Definition step_held (hs : list resource) (e : event) : list resource :=
  match acquires e, releases e with
  | Some r, _ => r :: hs
  | None, Some r => remove resource_eq_dec r hs
  | None, None => hs
  end.

(** Resources still held after a trace, most recently acquired first. *)
Definition held (tr : list event) : list resource := fold_left step_held tr [].

(** Stack discipline: every release of a resource acquired in the trace
    gives back the one acquired last among those still held. *)
Fixpoint lifo_from (hs : list resource) (tr : list event) : bool :=
  match tr with
  | [] => true
  | e :: tr' =>
    match acquires e, releases e with
    | Some r, _ => lifo_from (r :: hs) tr'
    | None, Some r =>
      match hs with
      | top :: hs' =>
        if resource_eq_dec r top then lifo_from hs' tr'
        else if in_dec resource_eq_dec r hs' then false
        else lifo_from hs tr'
      | [] => lifo_from hs tr'
      end
    | None, None => lifo_from hs tr'
    end
  end.

Definition lifo (tr : list event) : bool := lifo_from [] tr.

(** The releases of a trace, in order. *)
Definition released (tr : list event) : list resource :=
  flat_map (fun e => match releases e with Some r => [r] | None => [] end) tr.

Definition is_write (e : event) : bool :=
  match e with E_write _ _ => true | _ => false end.

(** No register write among the calls. *)
Definition no_write (evs : list event) : bool :=
  forallb (fun e => negb (is_write e)) evs.

(** ** Sample devices and machines *)

Definition no_regs : reg -> Z := fun _ => 0.

Definition fresh_machine : machine :=
  {| dev_private := None; devname := None; fb_base := 0; counters := 6;
     mmio := no_regs |}.

Definition loaded_machine (p : drm_i915_private) : machine :=
  set_dev_private (Some p) fresh_machine.

Definition sample_identity (g33 modeset : bool) : drm_identity :=
  {| pdev := sample_pdev (if g33 then 0x29C2 else 0x3582) (256 * MiB);
     IS_G33 := g33; IS_MOBILE := negb g33; IS_I9XX := g33; IS_I965G := false;
     DRIVER_MODESET := modeset; agp_base := 0xd0000000 |}.

(** Collaborators on a bridge reporting [gmch_ctrl]; the coherent page,
    the status-page mapping and the interrupt install answer as given,
    everything else succeeds. *)
Definition sample_env (gmch_ctrl : Z) (dmah : option drm_dma_handle)
    (ioremap : option Z) (irq : Z) : collaborators :=
  {| r_bridge_dev := Some (bridge_with gmch_ctrl);
     r_drm_pci_alloc := dmah;
     r_search_free := Some {| start := 0 |};
     r_get_block := Some {| start := 0x2000 |};
     r_ioremap := ioremap;
     r_init_ringbuffer := 0;
     r_create_workqueue := Some 0xc3000000;
     r_init_bios := 0;
     r_kstrdup := Some "i915"%string;
     r_irq_install := irq;
     r_drm_alloc := true;
     r_stolen_base := 0x7f800000;
     r_addmap := (0, Some 0xc4000000);
     r_uninit_locals := (0xdeadbeef, 0xcafe) |}.

Definition sample_dmah : drm_dma_handle :=
  {| vaddr := 0xc1000000; busaddr := 0x1f000 |}.

Definition all_fine (gmch_ctrl : Z) : collaborators :=
  sample_env gmch_ctrl (Some sample_dmah) (Some 0xc2000000) 0.

(** The interrupt install fails with -EBUSY. *)
Definition irq_install_fails : collaborators :=
  sample_env 0x30 (Some sample_dmah) (Some 0xc2000000) (-16).

(** No host bridge at bus 0, slot 0. *)
Definition no_bridge : collaborators :=
  {| r_bridge_dev := None;
     r_drm_pci_alloc := Some sample_dmah;
     r_search_free := Some {| start := 0 |};
     r_get_block := Some {| start := 0x2000 |};
     r_ioremap := Some 0xc2000000;
     r_init_ringbuffer := 0;
     r_create_workqueue := Some 0xc3000000;
     r_init_bios := 0;
     r_kstrdup := Some "i915"%string;
     r_irq_install := 0;
     r_drm_alloc := true;
     r_stolen_base := 0x7f800000;
     r_addmap := (0, Some 0xc4000000);
     r_uninit_locals := (0xdeadbeef, 0xcafe) |}.

(** The status-page mapping cannot be established. *)
Definition ioremap_fails : collaborators :=
  sample_env 0x30 (Some sample_dmah) None 0.

(** The calls load makes before it enters the bring-up sequence. *)
Definition load_prefix (id : drm_identity) (env : collaborators) : list event :=
  E_drm_alloc true
  :: (if IS_I9XX id then [E_read_stolen_base] else [])
  ++ [E_addmap (resource_start (pdev id) (if IS_I9XX id then 0 else 1))
               (resource_len (pdev id) (if IS_I9XX id then 0 else 1)) 0].

(** The acquisitions of a trace, in order. *)
Definition acquired (tr : list event) : list resource :=
  flat_map (fun e => match acquires e with Some r => [r] | None => [] end) tr.

(** ** Master private state *)

(** Constants of drm_sarea.h: the size of the shared area and of the
    generic header that precedes the driver-private part. *)
Record drm_sarea_h : Type := {
  SAREA_MAX : Z;
  sizeof_drm_sarea : Z
}.

(** A map as [drm_addmap] hands it out: its kernel address ([void *],
    0 for NULL). *)
Record drm_local_map : Type := { map_handle : Z }.

(** [struct drm_i915_master_private]: the SAREA map and the pointer to
    its driver-private part. *)
Record drm_i915_master_private : Type := {
  sarea : option drm_local_map;
  sarea_priv : option Z
}.

(** [struct drm_master], as far as this file goes. *)
Record drm_master : Type := {
  driver_priv : option drm_i915_master_private
}.

Inductive master_event : Type :=
| ME_calloc (ok : bool)                      (* drm_calloc *)
| ME_addmap (offset size ret : Z)            (* drm_addmap(dev, 0, sareapage, _DRM_SHM, ...) *)
| ME_store_pf_current_page (addr v : Z)      (* sarea_priv->pf_current_page = v *)
| ME_rmmap (map : drm_local_map)             (* drm_rmmap *)
| ME_free.                                   (* drm_free(master_priv) *)

(** Answers of the two fallible calls of [i915_master_create]: whether
    [drm_calloc] found memory, and the result of [drm_addmap] with the
    kernel address of the area it mapped. *)
Record master_collaborators : Type := {
  r_calloc : bool;
  r_sarea_addmap : Z * drm_local_map
}.

Section Master.

Context (H : drm_sarea_h) (env : master_collaborators).

(** [i915_master_create]: the [int] result, the master it leaves behind
    and the calls it made. *)
Definition i915_master_create (master : drm_master)
  : Z * drm_master * list master_event :=
  if negb (r_calloc env) then (- ENOMEM, master, [ME_calloc false]) else
  (* prebuild the SAREA *)
  let sareapage := Z.max (SAREA_MAX H) PAGE_SIZE in
  let ret := fst (r_sarea_addmap env) in
  if negb (ret =? 0) then
    (ret, master, [ME_calloc true; ME_addmap 0 sareapage ret])
  else
    let map := snd (r_sarea_addmap env) in
    let sarea_priv := map_handle map + sizeof_drm_sarea H in
    (0,
     {| driver_priv := Some {| sarea := Some map;
                               sarea_priv := Some sarea_priv |} |},
     [ME_calloc true; ME_addmap 0 sareapage ret;
      ME_store_pf_current_page sarea_priv 0]).

End Master.

(** [i915_master_destroy]. *)
Definition i915_master_destroy (master : drm_master)
  : drm_master * list master_event :=
  match driver_priv master with
  | None => (master, [])
  | Some master_priv =>
    ({| driver_priv := None |},
     (match sarea master_priv with
      | Some map => [ME_rmmap map]
      | None => []
      end) ++ [ME_free])
  end.

Inductive master_resource : Type := MR_private | MR_sarea.

Definition master_acquires (e : master_event) : option master_resource :=
  match e with
  | ME_calloc true => Some MR_private
  | ME_addmap _ _ ret => if ret =? 0 then Some MR_sarea else None
  | _ => None
  end.

Definition master_releases (e : master_event) : option master_resource :=
  match e with
  | ME_rmmap _ => Some MR_sarea
  | ME_free => Some MR_private
  | _ => None
  end.

Definition master_acquired (tr : list master_event) : list master_resource :=
  flat_map (fun e => match master_acquires e with
                     | Some r => [r] | None => [] end) tr.

Definition master_released (tr : list master_event) : list master_resource :=
  flat_map (fun e => match master_releases e with
                     | Some r => [r] | None => [] end) tr.

Definition sample_sarea_h : drm_sarea_h :=
  {| SAREA_MAX := 0x2000; sizeof_drm_sarea := 0x880 |}.

Definition sample_master : drm_master := {| driver_priv := None |}.

(** A device whose registers would be in BAR1, with BAR1 absent. *)
Definition no_window_identity : drm_identity :=
  {| pdev := {| device := 0x3582;
                resource_start := fun _ => 0;
                resource_len := fun _ => 0 |};
     IS_G33 := false; IS_MOBILE := true; IS_I9XX := false; IS_I965G := false;
     DRIVER_MODESET := true; agp_base := 0xd0000000 |}.

(** [drm_addmap] refuses the register window with -ENOMEM. *)
Definition addmap_fails : collaborators :=
  {| r_bridge_dev := Some (bridge_with 0x30);
     r_drm_pci_alloc := Some sample_dmah;
     r_search_free := Some {| start := 0 |};
     r_get_block := Some {| start := 0x2000 |};
     r_ioremap := Some 0xc2000000;
     r_init_ringbuffer := 0;
     r_create_workqueue := Some 0xc3000000;
     r_init_bios := 0;
     r_kstrdup := Some "i915"%string;
     r_irq_install := 0;
     r_drm_alloc := true;
     r_stolen_base := 0x7f800000;
     r_addmap := (-12, None);
     r_uninit_locals := (0xdeadbeef, 0xcafe) |}.

(** The firmware tables are not found; [intel_init_bios] says -5. *)
Definition bios_fails : collaborators :=
  {| r_bridge_dev := Some (bridge_with 0x30);
     r_drm_pci_alloc := Some sample_dmah;
     r_search_free := Some {| start := 0 |};
     r_get_block := Some {| start := 0x2000 |};
     r_ioremap := Some 0xc2000000;
     r_init_ringbuffer := 0;
     r_create_workqueue := Some 0xc3000000;
     r_init_bios := -5;
     r_kstrdup := Some "i915"%string;
     r_irq_install := 0;
     r_drm_alloc := true;
     r_stolen_base := 0x7f800000;
     r_addmap := (0, Some 0xc4000000);
     r_uninit_locals := (0xdeadbeef, 0xcafe) |}.

(** What status-page init needs from its collaborators, per strategy. *)
Definition hwstatus_answers_ok (id : drm_identity) (env : collaborators) : bool :=
  if IS_G33 id then
    match r_search_free env, r_get_block env, r_ioremap env with
    | Some _, Some _, Some _ => true
    | _, _, _ => false
    end
  else
    match r_drm_pci_alloc env with Some _ => true | None => false end.

(** Every fallible stage of the bring-up sequence that is tested
    succeeds. *)
Definition stages_succeed (id : drm_identity) (env : collaborators) : bool :=
  (r_init_ringbuffer env =? 0)
  && hwstatus_answers_ok id env
  && (match r_create_workqueue env with Some _ => true | None => false end)
  && (r_init_bios env =? 0)
  && (match r_kstrdup env with Some _ => true | None => false end)
  && (r_irq_install env =? 0).

(** The status-page fields of a private state are all NULL. *)
Definition status_page_unset (p : drm_i915_private) : Prop :=
  status_page_dmah p = None /\ hws p = None /\ handle (hws_map p) = None.

(** The calls made before a run, put in front of its trace. *)
Definition prepend {A} (pre : list event) (o : outcome A) : outcome A :=
  match o with
  | Done a m evs => Done a m (pre ++ evs)
  | Oops m evs => Oops m (pre ++ evs)
  end.

(** The machine and the trace a run ended with. *)
Definition outcome_machine {A} (o : outcome A) : machine :=
  match o with Done _ m _ | Oops m _ => m end.

Definition outcome_trace {A} (o : outcome A) : list event :=
  match o with Done _ _ evs | Oops _ evs => evs end.

(** Sample runs. *)
Definition hwstatus_run_g33 : outcome Z :=
  i915_init_hwstatus sample_header (sample_identity true true) (all_fine 0x30)
    (loaded_machine zeroed_private).

Definition bringup_run (g33 : bool) (env : collaborators) : outcome Z :=
  i915_load_modeset_init sample_header (sample_identity g33 true) env
    (loaded_machine zeroed_private).

Definition load_run (g33 : bool) (env : collaborators) : outcome Z :=
  i915_driver_load sample_header (sample_identity g33 true) env fresh_machine.

Definition sample_master_env : master_collaborators :=
  {| r_calloc := true; r_sarea_addmap := (0, {| map_handle := 0xc5000000 |}) |}.

Definition sample_master_env_nomap : master_collaborators :=
  {| r_calloc := true; r_sarea_addmap := (-12, {| map_handle := 0 |}) |}.

(** * Properties *)

(** ** Capacity prober *)

Lemma header_ok_width K :
  header_ok K = true -> BITS_PER_LONG K = 32 \/ BITS_PER_LONG K = 64.
Proof.
  unfold header_ok. intros H.
  apply andb_true_iff in H. destruct H as [H _].
  apply orb_true_iff in H. destruct H as [H | H]; apply Z.eqb_eq in H; auto.
Qed.

Lemma ulong_small K x :
  header_ok K = true -> 0 <= x < 2 ^ 32 -> ulong K x = x.
Proof.
  intros HK Hx. unfold ulong.
  apply Z.mod_small.
  destruct (header_ok_width K HK) as [-> | ->]; lia.
Qed.

Lemma probe_aperture_legacy K pdev tmp :
  header_ok K = true -> legacy_device K pdev = true ->
  probe_aperture K pdev tmp = 64 * MiB \/ probe_aperture K pdev tmp = 128 * MiB.
Proof.
  intros HK Hl. unfold probe_aperture. rewrite Hl.
  destruct (_ =? _); [left | right]; apply ulong_small; auto;
    unfold MiB; lia.
Qed.

Example probe_855_64M_8M :
  i915_probe_agp sample_header (Some (bridge_with 0x31)) (sample_pdev 0x3582 0) 7 9
  = (0, 64 * MiB, 8318976).
Proof. vm_compute. reflexivity. Qed.

Example probe_no_bridge :
  i915_probe_agp sample_header None (sample_pdev 0x3582 0) 7 9 = (-1, 7, 9).
Proof. reflexivity. Qed.

(** The stolen-memory switch, read as a table: the multiplier applied to
    the 1 MiB base on each successful exit. *)
Lemma probe_success_shape K bridge pdev a0 p0 r a p :
  header_ok K = true ->
  i915_probe_agp K (Some bridge) pdev a0 p0 = (r, a, p) ->
  r = -1 \/
  (r = 0 /\
   a = probe_aperture K pdev (u16 (config_word bridge (INTEL_GMCH_CTRL K))) /\
   exists k, In k [1; 4; 8; 16; 32; 48; 64] /\
     p = ulong K (1024 * 1024 * k - ulong K (a / 1024 + 4096))).
Proof.
  intros HK. unfold i915_probe_agp.
  set (tmp := u16 _). set (ap := probe_aperture K pdev tmp).
  set (gms := Z.land tmp _).
  assert (Hmul : forall k, 0 < k <= 64 ->
            ulong K (1024 * 1024 * k) = 1024 * 1024 * k)
    by (intros; apply ulong_small; auto; lia).
  repeat match goal with
  | |- context [if ?c then _ else _] => destruct c
  end. 
  all: intros E; apply pair_equal_spec in E; destruct E as [E <-];
    apply pair_equal_spec in E; destruct E as [<- <-].
  all: try (left; reflexivity).
  all: right; split; [reflexivity | split; [reflexivity |]].
  - exists 1; split; [cbv [In]; auto 10 | reflexivity].
  - exists 4. rewrite (Hmul 4) by lia. split; [cbv [In]; auto 10 | reflexivity].
  - exists 8. rewrite (Hmul 8) by lia. split; [cbv [In]; auto 10 | reflexivity].
  - exists 16. rewrite (Hmul 16) by lia. split; [cbv [In]; auto 10 | reflexivity].
  - exists 32. rewrite (Hmul 32) by lia. split; [cbv [In]; auto 10 | reflexivity].
  - exists 48. rewrite (Hmul 48) by lia. split; [cbv [In]; auto 10 | reflexivity].
  - exists 64. rewrite (Hmul 64) by lia. split; [cbv [In]; auto 10 | reflexivity].
Qed.

Lemma stolen_8M_not_earlier_label K :
  header_ok K = true ->
  (INTEL_855_GMCH_GMS_STOLEN_8M K =? INTEL_855_GMCH_GMS_STOLEN_1M K) = false /\
  (INTEL_855_GMCH_GMS_STOLEN_8M K =? INTEL_855_GMCH_GMS_STOLEN_4M K) = false.
Proof.
  unfold header_ok. intros H.
  apply andb_true_iff in H. destruct H as [_ H].
  cbn [distinctb existsb gms_case_labels] in H.
  rewrite (Z.eqb_sym (INTEL_855_GMCH_GMS_STOLEN_8M K) (INTEL_855_GMCH_GMS_STOLEN_1M K)).
  rewrite (Z.eqb_sym (INTEL_855_GMCH_GMS_STOLEN_8M K) (INTEL_855_GMCH_GMS_STOLEN_4M K)).
  destruct (INTEL_855_GMCH_GMS_STOLEN_1M K =? INTEL_855_GMCH_GMS_STOLEN_8M K);
    [rewrite ?orb_true_r in H; discriminate |].
  destruct (INTEL_855_GMCH_GMS_STOLEN_4M K =? INTEL_855_GMCH_GMS_STOLEN_8M K);
    [rewrite ?orb_true_r, ?andb_false_r in H; cbn [negb andb] in H;
     rewrite ?andb_false_r in H; discriminate |].
  auto.
Qed.

(** C9: with a 64 MiB aperture and the stolen-memory field reading "8M",
    the probe succeeds and reports
    8*1024*1024 - ((64*1024*1024/1024) + 4096) = 8,318,976 bytes of
    preallocated space. *)
Theorem probe_64M_aperture_8M_stolen K bridge pdev a0 p0 :
  header_ok K = true ->
  probe_aperture K pdev (u16 (config_word bridge (INTEL_GMCH_CTRL K)))
    = 64 * 1024 * 1024 ->
  Z.land (u16 (config_word bridge (INTEL_GMCH_CTRL K)))
         (INTEL_855_GMCH_GMS_MASK K) = INTEL_855_GMCH_GMS_STOLEN_8M K ->
  i915_probe_agp K (Some bridge) pdev a0 p0
    = (0, 64 * 1024 * 1024,
       8 * 1024 * 1024 - ((64 * 1024 * 1024 / 1024) + 4096))
  /\ 8 * 1024 * 1024 - ((64 * 1024 * 1024 / 1024) + 4096) = 8318976.
Proof.
  intros HK Hap Hgms. split; [| reflexivity].
  destruct (stolen_8M_not_earlier_label K HK) as [N1 N4].
  unfold i915_probe_agp. rewrite Hap, Hgms, N1, N4, Z.eqb_refl.
  f_equal.
  rewrite (ulong_small K (1024 * 1024 * 8)) by (auto; lia).
  rewrite (ulong_small K (64 * 1024 * 1024 / 1024 + 4096))
    by (auto; change (64 * 1024 * 1024 / 1024 + 4096) with 69632; lia).
  apply ulong_small; auto.
  change (0 <= 8318976 < 4294967296). lia.
Qed.

(** C4, as the code has it: the probe either fails with -1 or succeeds,
    and a successful probe reports [preallocated_size <= aperture_size]
    on the four legacy device ids, and on any other device whose BAR2
    (the aperture) is between 64 MiB and 1020 MiB long. *)
Theorem probe_prealloc_le_aperture K bridge_dev pdev a0 p0 r a p :
  header_ok K = true ->
  legacy_device K pdev = true
    \/ 64 * MiB <= resource_len pdev 2 <= 1020 * MiB ->
  i915_probe_agp K bridge_dev pdev a0 p0 = (r, a, p) ->
  r = -1 \/ (r = 0 /\ 0 <= p <= a).
Proof.
  intros HK Hdev E.
  destruct bridge_dev as [bridge |];
    [| left; unfold i915_probe_agp in E;
       apply pair_equal_spec in E; destruct E as [E _];
       apply pair_equal_spec in E; destruct E as [E _]; auto].
  destruct (probe_success_shape K bridge pdev a0 p0 r a p HK E)
    as [Hf | (Hr & Ha & k & Hk & Hp)]; [auto | right].
  split; [assumption |].
  set (tmp := u16 (config_word bridge (INTEL_GMCH_CTRL K))) in Ha.
  assert (Hrange : 64 * MiB <= a <= 1020 * MiB).
  { subst a. destruct (legacy_device K pdev) eqn:Hl.
    - destruct (probe_aperture_legacy K pdev tmp HK Hl) as [-> | ->];
        unfold MiB; lia.
    - destruct Hdev as [Hd | Hd]; [discriminate |].
      unfold probe_aperture. rewrite Hl.
      rewrite ulong_small by (auto; unfold MiB in Hd; lia). exact Hd. }
  unfold MiB in Hrange.
  assert (Hd : 65536 <= a / 1024 <= 1044480)
    by (split; [apply Z.div_le_lower_bound | apply Z.div_le_upper_bound]; lia).
  assert (Hov : ulong K (a / 1024 + 4096) = a / 1024 + 4096)
    by (apply ulong_small; auto; lia).
  rewrite Hov in Hp.
  assert (Hk' : 1 <= k <= 64)
    by (cbv [In] in Hk; lia).
  rewrite ulong_small in Hp by (auto; lia).
  lia.
Qed.

(** ** Status page *)

Ltac failed_leaf :=
  eexists _, _, _; split; [reflexivity |]; split;
  [ intros _; split; [intros r; reflexivity | reflexivity]
  | intros Hz; discriminate Hz ].

Ltac enabled_leaf :=
  eexists _, _, _; split; [reflexivity |]; split;
  [ intros Hz; exfalso; apply Hz; reflexivity
  | intros _;
    first [ eexists [_], _, _; split; [reflexivity | split; reflexivity]
          | eexists [_; _; _], _, _;
            split; [reflexivity | split; reflexivity] ] ].

(** C10: a failing status-page init (no coherent page, no free stolen
    block, pin failure, mapping failure) leaves every register as it was
    and issues no register write; a successful one issues exactly one,
    to the status register, after every acquisition of its strategy. *)
Theorem init_hwstatus_failure_writes_nothing K id env m p :
  dev_private m = Some p ->
  exists ret m' evs,
    i915_init_hwstatus K id env m = Done ret m' evs /\
    (ret <> 0 ->
       (forall r, mmio m' r = mmio m r) /\ no_write evs = true) /\
    (ret = 0 ->
       exists pre v va,
         evs = pre ++ [E_write HWS_PGA v; E_memset_page va] /\
         no_write pre = true /\
         mmio m' HWS_PGA = v).
Proof.
  intros Hp. destruct m as [dp dn fb cn regs]. cbn in Hp. subst dp.
  destruct p. unfold i915_init_hwstatus.
  destruct (IS_G33 id); cbn.
  - destruct (r_search_free env); cbn; [| failed_leaf].
    destruct (r_get_block env); cbn; [| failed_leaf].
    destruct (r_ioremap env); cbn; [| failed_leaf].
    enabled_leaf.
  - destruct (r_drm_pci_alloc env); cbn; [| failed_leaf].
    enabled_leaf.
Qed.

Ltac cleanup_rest :=
  split; [reflexivity |];
  split; [reflexivity |];
  split; [reflexivity |];
  split; [reflexivity |];
  split; [cbn; reflexivity | intros r; destruct r; reflexivity].

Ltac cleanup_leaf :=
  eexists _, _;
  first [ exists []; eexists; cleanup_rest
        | eexists [_]; eexists; cleanup_rest
        | eexists [_; _]; eexists; cleanup_rest ].

(** C5: status-page teardown ends with the write of the disabled
    sentinel 0x1ffff000 to the status register, whichever strategy is
    active and whether or not anything was ever allocated; a second
    teardown leaves the registers as the first one did. *)
Theorem cleanup_hwstatus_writes_sentinel id m p :
  dev_private m = Some p ->
  exists m1 m2 pre evs2,
    i915_cleanup_hwstatus id m
      = Done tt m1 (pre ++ [E_write HWS_PGA 0x1ffff000]) /\
    no_write pre = true /\
    mmio m1 HWS_PGA = 0x1ffff000 /\
    i915_cleanup_hwstatus id m1 = Done tt m2 evs2 /\
    last evs2 E_drm_free = E_write HWS_PGA 0x1ffff000 /\
    (forall r, mmio m2 r = mmio m1 r).
Proof.
  intros Hp. destruct m as [dp dn fb cn regs]. cbn in Hp. subst dp.
  destruct p as [? ? ? ? ? ? ? dmah ? ? blk ? [? ? ? ? ? hdl] ? ? ?].
  unfold i915_cleanup_hwstatus.
  destruct (IS_G33 id); cbn.
  - destruct hdl, blk; cbn; cleanup_leaf.
  - destruct dmah; cbn; cleanup_leaf.
Qed.

(** ** Unload *)




(** ** Bring-up sequence *)

Lemma Done_inj {A} (a a' : A) m m' evs evs' :
  Done a m evs = Done a' m' evs' -> a = a' /\ m = m' /\ evs = evs'.
Proof. intros E. injection E. auto. Qed.

(** Case analysis along the control flow of [i915_load_modeset_init],
    one collaborator answer at a time. *)
Ltac bringup_step :=
  match goal with
  | |- context [r_uninit_locals ?e] => destruct (r_uninit_locals e) as [? ?]
  | |- context [i915_probe_agp ?K ?b ?d ?x ?y] =>
      destruct (i915_probe_agp K b d x y) as [[? ?] ?]
  | |- context [r_init_ringbuffer ?e =? 0] =>
      destruct (r_init_ringbuffer e =? 0) eqn:?
  | |- context [IS_G33 ?i] => destruct (IS_G33 i) eqn:?
  | |- context [r_drm_pci_alloc ?e] =>
      destruct (r_drm_pci_alloc e) eqn:?
  | |- context [r_search_free ?e] =>
      destruct (r_search_free e) eqn:?
  | |- context [r_get_block ?e] =>
      destruct (r_get_block e) eqn:?
  | |- context [r_ioremap ?e] =>
      destruct (r_ioremap e) eqn:?
  | |- context [r_create_workqueue ?e] =>
      destruct (r_create_workqueue e) eqn:?
  | |- context [r_init_bios ?e =? 0] =>
      destruct (r_init_bios e =? 0) eqn:?
  | |- context [r_kstrdup ?e] =>
      destruct (r_kstrdup e) eqn:?
  | |- context [r_irq_install ?e =? 0] =>
      destruct (r_irq_install e =? 0) eqn:?
  end.

Ltac bringup_cases :=
  unfold i915_load_modeset_init, i915_init_hwstatus, modeset_cleanup,
    destroy_wq, destroy_hws, destroy_ringbuffer, i915_cleanup_hwstatus;
  repeat (bringup_step; cbn).

(** The bring-up sequence always returns when the private state is there;
    it keeps the register mapping recorded in it, and its result is a
    negative errno whenever the collaborators follow that convention. *)
Lemma load_modeset_init_total K id env m p :
  dev_private m = Some p ->
  exists ret m' evs p',
    i915_load_modeset_init K id env m = Done ret m' evs /\
    dev_private m' = Some p' /\
    mmio_map p' = mmio_map p /\
    (r_init_ringbuffer env <= 0 -> r_irq_install env <= 0 -> ret <= 0).
Proof.
  intros Hp. destruct m as [dp dn fb cn regs]. cbn in Hp. subst dp.
  destruct p as [? ? ? ? ? ? ? dmah ? ? blk ? [? ? ? ? ? hdl] ? ? ?].
  bringup_cases.
  all: eexists _, _, _, _; split; [reflexivity |]; split; [reflexivity |];
       split; [reflexivity |]; unfold ENOMEM, EINVAL, ENODEV; lia.
Qed.

(** After a failed bring-up nothing acquired by the stages from the ring
    buffer on is still held, except the pinned status-page block when
    its mapping failed on G33; in every other case the releases came in
    stack order.  The range allocator of the stolen space is never taken
    down here. *)
Lemma bringup_failure_rollback K id env m p ret m' evs :
  dev_private m = Some p ->
  i915_load_modeset_init K id env m = Done ret m' evs ->
  ret <> 0 ->
  incl (held evs) [R_stolen_block; R_vram] /\
  (In R_stolen_block (held evs) ->
   IS_G33 id = true /\ r_ioremap env = None) /\
  (~ In R_stolen_block (held evs) -> lifo evs = true).
Proof.
  intros Hp. destruct m as [dp dn fb cn regs]. cbn in Hp. subst dp.
  destruct p as [? ? ? ? ? ? ? dmah ? ? blk ? [? ? ? ? ? hdl] ? ? ?].
  bringup_cases.
  all: intros E Hret; apply Done_inj in E.
  all: destruct E as (E1 & _ & E3); subst ret evs.
  all: try (exfalso; apply Hret; reflexivity).
  all: cbv [lifo held fold_left step_held lifo_from acquires releases];
       repeat match goal with H : (_ =? _) = _ |- _ => rewrite H end; cbn.
  all: split; [intros r Hr; cbn in *; intuition auto |]; split;
       [ intros Hin; cbn in Hin; intuition (auto; try discriminate)
       | intros Hn; first [reflexivity | exfalso; apply Hn; cbn; auto] ].
Qed.

(** ** Load *)

Arguments i915_load_modeset_init _ _ _ _ : simpl never.

(** C8: in mode-setting mode, when the bring-up sequence fails (returns
    a negative errno, which every failure of it is when the ring-buffer
    and interrupt collaborators report errors that way), load uninstalls
    the register mapping, frees the private state block and returns the
    error code of the bring-up sequence unchanged. *)
Theorem load_modeset_failure_unwinds K id env m :
  r_drm_alloc env = true ->
  IS_I9XX id = true \/ resource_start (pdev id) 1 <> 0 ->
  fst (r_addmap env) = 0 ->
  DRIVER_MODESET id = true ->
  exists m0 ret m1 evs,
    i915_load_modeset_init K id env m0 = Done ret m1 evs /\
    (ret < 0 ->
     i915_driver_load K id env m
       = Done ret m1 (load_prefix id env ++ evs
                        ++ [E_rmmap (snd (r_addmap env)); E_drm_free])) /\
    (r_init_ringbuffer env <= 0 -> r_irq_install env <= 0 ->
     ret <> 0 -> ret < 0) /\
    (ret = 0 ->
     i915_driver_load K id env m = Done 0 m1 (load_prefix id env ++ evs)).
Proof.
  intros Halloc Hwin Hmap Hms.
  destruct m as [dp dn fb cn regs].
  unfold i915_driver_load, load_map_registers, load_prefix.
  rewrite Halloc, Hmap, Hms.
  assert (Hrun : forall m0 p0,
            dev_private m0 = Some p0 -> mmio_map p0 = snd (r_addmap env) ->
            exists ret m1 evs,
              i915_load_modeset_init K id env m0 = Done ret m1 evs /\
              (ret < 0 ->
               (ret' <- i915_load_modeset_init K id env ;;
                if ret' <? 0 then out_rmmap ret' else returns 0) m0
               = Done ret m1
                   (evs ++ [E_rmmap (snd (r_addmap env)); E_drm_free])) /\
              (r_init_ringbuffer env <= 0 -> r_irq_install env <= 0 ->
               ret <> 0 -> ret < 0) /\
              (ret = 0 ->
               (ret' <- i915_load_modeset_init K id env ;;
                if ret' <? 0 then out_rmmap ret' else returns 0) m0
               = Done 0 m1 (evs ++ []))).
  { intros m0 p0 Hp0 Hm0.
    destruct (load_modeset_init_total K id env m0 p0 Hp0)
      as (ret & m1 & evs & p1 & E & Hp1 & Hm1 & Hneg).
    exists ret, m1, evs. split; [exact E |].
    unfold bind. rewrite E.
    split; [intros Hret | split; [intros Hr Hi Hret | intros Hret]].
    - destruct (Z.ltb_spec ret 0); [| lia].
      unfold out_rmmap, free_priv, bind, priv, emit, returns.
      rewrite Hp1. cbn [app]. rewrite Hm1, Hm0. reflexivity.
    - specialize (Hneg Hr Hi). lia.
    - subst ret. reflexivity. }
  assert (Hwin' : IS_I9XX id = false ->
                  (resource_start (pdev id) 1 =? 0) = false).
  { intros H9. destruct Hwin as [Hw | Hw]; [congruence |].
    apply Z.eqb_neq. exact Hw. }
  destruct (IS_I9XX id) eqn:H9; [| rewrite (Hwin' eq_refl)];
    destruct (IS_I965G id || IS_G33 id); cbn.
  all: match goal with
       | |- context [bind (i915_load_modeset_init _ _ _) _ ?m0] =>
         destruct (Hrun m0 _ eq_refl eq_refl)
           as (ret & m1 & evs & E & Hf & Hc & Hs);
         exists m0, ret, m1, evs
       end.
  all: split; [exact E |]; split; [| split; [exact Hc |]]; intros Hret;
       [rewrite (Hf Hret) | rewrite (Hs Hret), app_nil_r]; reflexivity.
Qed.

(** Whatever the probe returned, the bring-up sequence goes on to set up
    the range allocator and the memory manager with the two sizes found
    in the out parameters, and then tries the ring buffer. *)
Lemma bringup_enters_stage_2_after_any_probe K id env m p :
  dev_private m = Some p ->
  exists ret m' rest,
    i915_load_modeset_init K id env m
    = Done ret m'
        (E_memrange_init 0
           (snd (i915_probe_agp K (r_bridge_dev env) (pdev id)
                   (fst (r_uninit_locals env)) (snd (r_uninit_locals env))))
         :: E_gem_do_init
              (snd (i915_probe_agp K (r_bridge_dev env) (pdev id)
                      (fst (r_uninit_locals env)) (snd (r_uninit_locals env))))
              (snd (fst (i915_probe_agp K (r_bridge_dev env) (pdev id)
                           (fst (r_uninit_locals env))
                           (snd (r_uninit_locals env)))))
         :: E_gem_init_ringbuffer (r_init_ringbuffer env) :: rest).
Proof.
  intros Hp. destruct m as [dp dn fb cn regs]. cbn in Hp. subst dp.
  destruct p as [? ? ? ? ? ? ? dmah ? ? blk ? [? ? ? ? ? hdl] ? ? ?].
  bringup_cases.
  all: eexists _, _, _; reflexivity.
Qed.

(** On G33, once a block is found and pinned, a refused mapping makes
    status-page init return -ENOMEM with the block still recorded in
    [dev_priv->hws] and nothing released. *)
Lemma init_hwstatus_map_failure_keeps_block K id env m p free_space blk :
  dev_private m = Some p ->
  IS_G33 id = true ->
  r_search_free env = Some free_space ->
  r_get_block env = Some blk ->
  r_ioremap env = None ->
  exists m' evs,
    i915_init_hwstatus K id env m = Done (- ENOMEM) m' evs /\
    option_map hws (dev_private m') = Some (Some blk) /\
    released evs = [] /\
    held evs = [R_stolen_block].
Proof.
  intros Hp Hg Hs Hb Hi. destruct m as [dp dn fb cn regs]. cbn in Hp. subst dp.
  destruct p. unfold i915_init_hwstatus.
  rewrite Hg, Hs, Hb, Hi. cbn.
  eexists _, _. split; [reflexivity |]. repeat split.
Qed.

(** ** The code at particular inputs *)

(** C1: the result of the probe is dropped.  With the stolen-memory
    field reading "disabled" the probe fails with -1, and the bring-up
    sequence still initialises the range allocator over the 1 MiB the
    failed probe left behind, hands the memory manager the same value,
    and runs to completion; with no host bridge at all, the two sizes
    are whatever the uninitialised locals held. *)
Theorem bringup_ignores_failed_probe :
  i915_probe_agp sample_header (r_bridge_dev (all_fine 0x00))
    (pdev (sample_identity false true)) 0xdeadbeef 0xcafe
    = (-1, 128 * MiB, 1 * MiB)
  /\ (exists m' rest,
        i915_load_modeset_init sample_header (sample_identity false true)
          (all_fine 0x00) (loaded_machine zeroed_private)
        = Done 0 m' (E_memrange_init 0 (1 * MiB)
                     :: E_gem_do_init (1 * MiB) (128 * MiB) :: rest))
  /\ i915_probe_agp sample_header (r_bridge_dev no_bridge)
       (pdev (sample_identity false true)) 0xdeadbeef 0xcafe
     = (-1, 0xdeadbeef, 0xcafe)
  /\ (exists m' rest,
        i915_load_modeset_init sample_header (sample_identity false true)
          no_bridge (loaded_machine zeroed_private)
        = Done 0 m' (E_memrange_init 0 0xcafe
                     :: E_gem_do_init 0xcafe 0xdeadbeef :: rest)).
Proof.
  split; [vm_compute; reflexivity |].
  split; [eexists _, _; vm_compute; reflexivity |].
  split; [vm_compute; reflexivity |].
  eexists _, _; vm_compute; reflexivity.
Qed.

(** C3: on G33, with a free block found and pinned and the mapping
    refused, status-page init returns -ENOMEM through the empty label
    [out_free]: the block is not put back and stays recorded in
    [dev_priv->hws]. *)
Theorem init_hwstatus_map_failure_leaks_block :
  exists m',
    i915_init_hwstatus sample_header (sample_identity true true) ioremap_fails
      (loaded_machine zeroed_private)
    = Done (- ENOMEM) m'
        [E_memrange_search_free (Some {| start := 0 |});
         E_memrange_get_block (Some {| start := 0x2000 |});
         E_core_ioremap None]
    /\ option_map hws (dev_private m') = Some (Some {| start := 0x2000 |})
    /\ released [E_memrange_search_free (Some {| start := 0 |});
                 E_memrange_get_block (Some {| start := 0x2000 |});
                 E_core_ioremap None] = []
    /\ held [E_memrange_search_free (Some {| start := 0 |});
             E_memrange_get_block (Some {| start := 0x2000 |});
             E_core_ioremap None] = [R_stolen_block].
Proof.
  eexists. split; [vm_compute; reflexivity |].
  split; [reflexivity |]. split; reflexivity.
Qed.

(** C2: the same mapping failure seen from the bring-up sequence: the
    stage fails, the ring buffer is rolled back, and the block pinned by
    the failed stage is still held on return (with the range allocator
    of stage 2), so the releases are not in stack order either. *)
Theorem bringup_map_failure_leaves_block :
  exists m',
    i915_load_modeset_init sample_header (sample_identity true true)
      ioremap_fails (loaded_machine zeroed_private)
    = Done (- ENOMEM) m'
        [E_memrange_init 0 8122368; E_gem_do_init 8122368 (256 * MiB);
         E_gem_init_ringbuffer 0;
         E_memrange_search_free (Some {| start := 0 |});
         E_memrange_get_block (Some {| start := 0x2000 |});
         E_core_ioremap None;
         E_gem_cleanup_ringbuffer]
    /\ held [E_memrange_init 0 8122368; E_gem_do_init 8122368 (256 * MiB);
             E_gem_init_ringbuffer 0;
             E_memrange_search_free (Some {| start := 0 |});
             E_memrange_get_block (Some {| start := 0x2000 |});
             E_core_ioremap None;
             E_gem_cleanup_ringbuffer] = [R_stolen_block; R_vram]
    /\ lifo [E_memrange_init 0 8122368; E_gem_do_init 8122368 (256 * MiB);
             E_gem_init_ringbuffer 0;
             E_memrange_search_free (Some {| start := 0 |});
             E_memrange_get_block (Some {| start := 0x2000 |});
             E_core_ioremap None;
             E_gem_cleanup_ringbuffer] = false.
Proof.
  eexists. split; [vm_compute; reflexivity |].
  split; reflexivity.
Qed.

(** ** Instances *)

Lemma probe_64M_aperture_8M_stolen_witness :
  i915_probe_agp sample_header (Some (bridge_with 0x31))
    (sample_pdev 0x3582 0) 7 9
    = (0, 64 * 1024 * 1024,
       8 * 1024 * 1024 - ((64 * 1024 * 1024 / 1024) + 4096))
  /\ 8 * 1024 * 1024 - ((64 * 1024 * 1024 / 1024) + 4096) = 8318976.
Proof.
  apply (probe_64M_aperture_8M_stolen sample_header (bridge_with 0x31)
           (sample_pdev 0x3582 0) 7 9);
    vm_compute; reflexivity.
Defined.

Lemma probe_prealloc_le_aperture_witness :
  i915_probe_agp sample_header (Some (bridge_with 0x31))
    (sample_pdev 0x3582 0) 7 9 = (0, 64 * MiB, 8318976)
  /\ (0 = -1 \/ (0 = 0 /\ 0 <= 8318976 <= 64 * MiB)).
Proof.
  split; [vm_compute; reflexivity |].
  apply (probe_prealloc_le_aperture sample_header (Some (bridge_with 0x31))
           (sample_pdev 0x3582 0) 7 9 0 (64 * MiB) 8318976).
  - vm_compute; reflexivity.
  - left; vm_compute; reflexivity.
  - vm_compute; reflexivity.
Defined.

(** A G33-class device whose BAR2 is 4 MiB long, with 8 MiB stolen: the
    probe succeeds with more preallocated space than aperture. *)
Lemma probe_prealloc_exceeds_small_aperture :
  i915_probe_agp sample_header (Some (bridge_with 0x30))
    (sample_pdev 0x29C2 (4 * MiB)) 0 0
    = (0, 4 * MiB, 8380416)
  /\ ~ (8380416 <= 4 * MiB).
Proof.
  split; [vm_compute; reflexivity |].
  unfold MiB. lia.
Qed.

Lemma init_hwstatus_failure_writes_nothing_witness :
  exists ret m' evs,
    i915_init_hwstatus sample_header (sample_identity false true)
      (sample_env 0x30 None None 0) (loaded_machine zeroed_private)
    = Done ret m' evs /\
    (ret <> 0 ->
       (forall r, mmio m' r = mmio (loaded_machine zeroed_private) r)
       /\ no_write evs = true) /\
    (ret = 0 ->
       exists pre v va,
         evs = pre ++ [E_write HWS_PGA v; E_memset_page va] /\
         no_write pre = true /\
         mmio m' HWS_PGA = v).
Proof.
  apply (init_hwstatus_failure_writes_nothing sample_header
           (sample_identity false true) (sample_env 0x30 None None 0)
           (loaded_machine zeroed_private) zeroed_private).
  reflexivity.
Defined.

Lemma cleanup_hwstatus_writes_sentinel_witness :
  exists m1 m2 pre evs2,
    i915_cleanup_hwstatus (sample_identity true true)
      (loaded_machine zeroed_private)
      = Done tt m1 (pre ++ [E_write HWS_PGA 0x1ffff000]) /\
    no_write pre = true /\
    mmio m1 HWS_PGA = 0x1ffff000 /\
    i915_cleanup_hwstatus (sample_identity true true) m1 = Done tt m2 evs2 /\
    last evs2 E_drm_free = E_write HWS_PGA 0x1ffff000 /\
    (forall r, mmio m2 r = mmio m1 r).
Proof.
  apply (cleanup_hwstatus_writes_sentinel (sample_identity true true)
           (loaded_machine zeroed_private) zeroed_private).
  reflexivity.
Defined.



(** Unload, then unload again: the second call faults. *)
Lemma second_unload_faults :
  exists m1 evs,
    i915_driver_unload (sample_identity false true)
      (loaded_machine zeroed_private) = Done 0 m1 evs /\
    i915_driver_unload (sample_identity false true) m1 = Oops m1 [] /\
    ~ (exists r m2 evs2,
         i915_driver_unload (sample_identity false true) m1 = Done r m2 evs2).
Proof.
  eexists _, _. split; [vm_compute; reflexivity |].
  split; [reflexivity |].
  intros (r & m2 & evs2 & E). discriminate E.
Qed.

Lemma load_modeset_failure_unwinds_witness :
  exists m0 ret m1 evs,
    i915_load_modeset_init sample_header (sample_identity false true)
      irq_install_fails m0
      = Done ret m1 evs /\
    (ret < 0 ->
     i915_driver_load sample_header (sample_identity false true)
       irq_install_fails fresh_machine
       = Done ret m1
           (load_prefix (sample_identity false true) irq_install_fails
            ++ evs
            ++ [E_rmmap (snd (r_addmap irq_install_fails)); E_drm_free])) /\
    (r_init_ringbuffer irq_install_fails <= 0 ->
     r_irq_install irq_install_fails <= 0 ->
     ret <> 0 -> ret < 0) /\
    (ret = 0 ->
     i915_driver_load sample_header (sample_identity false true)
       irq_install_fails fresh_machine
       = Done 0 m1
           (load_prefix (sample_identity false true) irq_install_fails
            ++ evs)).
Proof.
  apply (load_modeset_failure_unwinds sample_header
           (sample_identity false true) irq_install_fails fresh_machine).
  - reflexivity.
  - right. vm_compute. discriminate.
  - reflexivity.
  - reflexivity.
Defined.

(** The run of the last instance, spelled out: the interrupt install
    fails with -EBUSY, the bring-up sequence unwinds, and load removes
    the register mapping, frees the private block and returns -16. *)
Example load_irq_failure_run :
  exists m1,
    i915_driver_load sample_header (sample_identity false true)
      irq_install_fails fresh_machine
    = Done (-16) m1
        [E_drm_alloc true; E_addmap 0xe0000000 0x80000 0;
         E_memrange_init 0 8253440; E_gem_do_init 8253440 (128 * MiB);
         E_gem_init_ringbuffer 0;
         E_drm_pci_alloc (Some sample_dmah);
         E_write HWS_PGA 0x1f000; E_memset_page (Some 0xc1000000);
         E_mutex_init_cmdbuf; E_create_workqueue (Some 0xc3000000);
         E_init_bios 0; E_modeset_init; E_initial_config;
         E_kstrdup (Some "i915"%string); E_irq_install (-16);
         E_kfree_devname; E_modeset_cleanup;
         E_destroy_workqueue (Some 0xc3000000);
         E_drm_pci_free sample_dmah; E_write HWS_PGA 0x1ffff000;
         E_gem_cleanup_ringbuffer;
         E_rmmap (Some 0xc4000000); E_drm_free].
Proof. eexists. vm_compute. reflexivity. Qed.

(** * Further properties *)

(** ** Capacity prober *)

Lemma label_not_earlier a b rest :
  distinctb (a :: rest) = true -> In b rest -> (b =? a) = false.
Proof.
  cbn [distinctb]. intros Hd Hin.
  apply andb_true_iff in Hd. destruct Hd as [Hd _].
  destruct (b =? a) eqn:E; [| reflexivity].
  apply Z.eqb_eq in E. subst b.
  apply negb_true_iff in Hd.
  assert (Hex : existsb (Z.eqb a) rest = true)
    by (apply existsb_exists; exists a; split; [assumption | apply Z.eqb_refl]).
  congruence.
Qed.

Lemma distinctb_tail a rest : distinctb (a :: rest) = true -> distinctb rest = true.
Proof.
  cbn [distinctb]. intros Hd. apply andb_true_iff in Hd. tauto.
Qed.

Lemma disabled_not_stolen_label K :
  header_ok K = true ->
  forall l, In l [ INTEL_855_GMCH_GMS_STOLEN_1M K; INTEL_855_GMCH_GMS_STOLEN_4M K;
                   INTEL_855_GMCH_GMS_STOLEN_8M K; INTEL_855_GMCH_GMS_STOLEN_16M K;
                   INTEL_855_GMCH_GMS_STOLEN_32M K; INTEL_915G_GMCH_GMS_STOLEN_48M K;
                   INTEL_915G_GMCH_GMS_STOLEN_64M K ] ->
  (INTEL_855_GMCH_GMS_DISABLED K =? l) = false.
Proof.
  unfold header_ok. intros HK.
  apply andb_true_iff in HK. destruct HK as [_ Hd].
  unfold gms_case_labels in Hd.
  intros l Hin. cbv [In] in Hin.
  destruct Hin as [<- | Hin];
    [apply (label_not_earlier _ _ _ Hd); cbv [In]; tauto
    | apply distinctb_tail in Hd].
  destruct Hin as [<- | Hin];
    [apply (label_not_earlier _ _ _ Hd); cbv [In]; tauto
    | apply distinctb_tail in Hd].
  destruct Hin as [<- | Hin];
    [apply (label_not_earlier _ _ _ Hd); cbv [In]; tauto
    | apply distinctb_tail in Hd].
  destruct Hin as [<- | Hin];
    [apply (label_not_earlier _ _ _ Hd); cbv [In]; tauto
    | apply distinctb_tail in Hd].
  destruct Hin as [<- | Hin];
    [apply (label_not_earlier _ _ _ Hd); cbv [In]; tauto
    | apply distinctb_tail in Hd].
  destruct Hin as [<- | Hin];
    [apply (label_not_earlier _ _ _ Hd); cbv [In]; tauto
    | apply distinctb_tail in Hd].
  destruct Hin as [<- | []].
  apply (label_not_earlier _ _ _ Hd); cbv [In]; tauto.
Qed.

(** X1: when the stolen-memory field of the bridge control word reads
    "disabled", the probe fails with -1 on every device; by then it has
    stored the aperture size, and the preallocated size is left at the
    1 MiB it started from. *)
Theorem probe_disabled_fails K bridge pdev a0 p0 :
  header_ok K = true ->
  Z.land (u16 (config_word bridge (INTEL_GMCH_CTRL K)))
         (INTEL_855_GMCH_GMS_MASK K) = INTEL_855_GMCH_GMS_DISABLED K ->
  i915_probe_agp K (Some bridge) pdev a0 p0
  = (-1,
     probe_aperture K pdev (u16 (config_word bridge (INTEL_GMCH_CTRL K))),
     1024 * 1024).
Proof.
  intros HK Hgms.
  pose proof (disabled_not_stolen_label K HK) as Hn.
  unfold i915_probe_agp. rewrite Hgms.
  rewrite !Hn by (cbv [In]; tauto).
  rewrite Z.eqb_refl. reflexivity.
Qed.

(** The seven labels that select a stolen-memory size. *)
Lemma probe_status K bridge_dev pdev a0 p0 :
  fst (fst (i915_probe_agp K bridge_dev pdev a0 p0)) =
  match bridge_dev with
  | None => -1
  | Some bridge =>
    if existsb
         (Z.eqb (Z.land (u16 (config_word bridge (INTEL_GMCH_CTRL K)))
                        (INTEL_855_GMCH_GMS_MASK K)))
         [ INTEL_855_GMCH_GMS_STOLEN_1M K; INTEL_855_GMCH_GMS_STOLEN_4M K;
           INTEL_855_GMCH_GMS_STOLEN_8M K; INTEL_855_GMCH_GMS_STOLEN_16M K;
           INTEL_855_GMCH_GMS_STOLEN_32M K; INTEL_915G_GMCH_GMS_STOLEN_48M K;
           INTEL_915G_GMCH_GMS_STOLEN_64M K ]
    then 0 else -1
  end.
Proof.
  unfold i915_probe_agp. destruct bridge_dev as [bridge |]; [| reflexivity].
  cbv [existsb].
  repeat match goal with
  | |- context [Z.eqb ?a ?b] => destruct (Z.eqb a b)
  end; reflexivity.
Qed.

(** X2: the probe returns 0 exactly when the host bridge is there and
    the stolen-memory field of its control word carries one of the
    seven size labels (the device id and the PCI resources play no part
    in it); in every other case it returns -1. *)
Theorem probe_succeeds_iff K bridge_dev pdev a0 p0 :
  (fst (fst (i915_probe_agp K bridge_dev pdev a0 p0)) = 0 <->
   exists bridge,
     bridge_dev = Some bridge /\
     In (Z.land (u16 (config_word bridge (INTEL_GMCH_CTRL K)))
                (INTEL_855_GMCH_GMS_MASK K))
        [ INTEL_855_GMCH_GMS_STOLEN_1M K; INTEL_855_GMCH_GMS_STOLEN_4M K;
          INTEL_855_GMCH_GMS_STOLEN_8M K; INTEL_855_GMCH_GMS_STOLEN_16M K;
          INTEL_855_GMCH_GMS_STOLEN_32M K; INTEL_915G_GMCH_GMS_STOLEN_48M K;
          INTEL_915G_GMCH_GMS_STOLEN_64M K ])
  /\ (fst (fst (i915_probe_agp K bridge_dev pdev a0 p0)) = 0 \/
      fst (fst (i915_probe_agp K bridge_dev pdev a0 p0)) = -1).
Proof.
  rewrite probe_status.
  destruct bridge_dev as [bridge |].
  - set (gms := Z.land _ _). set (labels := [_; _; _; _; _; _; _]).
    destruct (existsb (Z.eqb gms) labels) eqn:E.
    + split; [| auto]. split; [intros _ | reflexivity].
      apply existsb_exists in E. destruct E as (l & Hin & Heq).
      apply Z.eqb_eq in Heq. subst l. exists bridge. auto.
    + split; [| auto]. split; [discriminate |].
      intros (b & Hb & Hin). injection Hb as <-.
      assert (existsb (Z.eqb gms) labels = true)
        by (apply existsb_exists; exists gms; split;
            [exact Hin | apply Z.eqb_refl]).
      congruence.
  - split; [| auto]. split; [discriminate |].
    intros (b & Hb & _). discriminate Hb.
Qed.

(** X3: the overhead is subtracted without a test.  On a device that is
    not one of the four legacy ids, with an aperture (BAR2) of 1 GiB to
    2 GiB and 1 MiB stolen, the overhead exceeds the stolen size and the
    unsigned subtraction wraps: the probe succeeds and reports
    2^BITS_PER_LONG - (overhead - 1 MiB) bytes of preallocated space. *)
Theorem probe_overhead_wraps K bridge pdev a0 p0 :
  header_ok K = true ->
  legacy_device K pdev = false ->
  1024 * MiB <= resource_len pdev 2 <= 2048 * MiB ->
  Z.land (u16 (config_word bridge (INTEL_GMCH_CTRL K)))
         (INTEL_855_GMCH_GMS_MASK K) = INTEL_855_GMCH_GMS_STOLEN_1M K ->
  i915_probe_agp K (Some bridge) pdev a0 p0
  = (0, resource_len pdev 2,
     2 ^ BITS_PER_LONG K - (resource_len pdev 2 / 1024 + 4096 - 1 * MiB))
  /\ resource_len pdev 2
     < 2 ^ BITS_PER_LONG K - (resource_len pdev 2 / 1024 + 4096 - 1 * MiB).
Proof.
  intros HK Hl HL Hgms. unfold MiB in HL.
  assert (Hd : 1048576 <= resource_len pdev 2 / 1024 <= 2097152).
  { split; [apply Z.div_le_lower_bound | apply Z.div_le_upper_bound]; lia. }
  assert (Hap : probe_aperture K pdev
                  (u16 (config_word bridge (INTEL_GMCH_CTRL K)))
                = resource_len pdev 2).
  { unfold probe_aperture. rewrite Hl. apply ulong_small; auto. lia. }
  unfold i915_probe_agp. rewrite Hap, Hgms, Z.eqb_refl.
  rewrite (ulong_small K (resource_len pdev 2 / 1024 + 4096)) by (auto; lia).
  assert (Hw : ulong K (1024 * 1024 - (resource_len pdev 2 / 1024 + 4096))
               = 2 ^ BITS_PER_LONG K
                 - (resource_len pdev 2 / 1024 + 4096 - 1 * MiB)).
  { unfold ulong, MiB.
    destruct (header_ok_width K HK) as [-> | ->].
    - change (2 ^ 32) with 4294967296.
      symmetry. apply Z.mod_unique with (q := -1); lia.
    - change (2 ^ 64) with 18446744073709551616.
      symmetry. apply Z.mod_unique with (q := -1); lia. }
  rewrite Hw. split; [reflexivity |].
  unfold MiB.
  destruct (header_ok_width K HK) as [-> | ->]; lia.
Qed.

(** ** Status page *)

(** X4: when status-page init returns 0 the page it zeroes is the one it
    recorded in [hws_vaddr], never NULL, and the status register holds
    the address the device is to use: the bus address of the coherent
    page, or on G33 the offset of the pinned block inside the stolen
    range (not the aperture address [agp->base + start], which is only
    what gets mapped), truncated to the 32 bits of the register. *)
Theorem init_hwstatus_success_state K id env m p ret m' evs :
  dev_private m = Some p ->
  i915_init_hwstatus K id env m = Done ret m' evs ->
  ret = 0 ->
  exists p' va,
    dev_private m' = Some p' /\
    hws_vaddr p' = Some va /\
    last evs E_drm_free = E_memset_page (Some va) /\
    if IS_G33 id then
      exists blk,
        r_get_block env = Some blk /\ hws p' = Some blk /\
        r_ioremap env = Some va /\
        hws_agpoffset p' = start blk /\
        offset (hws_map p') = ulong K (agp_base id + start blk) /\
        size (hws_map p') = PAGE_SIZE /\
        handle (hws_map p') = Some va /\
        mmio m' HWS_PGA = u32 (start blk)
    else
      exists dmah,
        r_drm_pci_alloc env = Some dmah /\ status_page_dmah p' = Some dmah /\
        va = vaddr dmah /\
        dma_status_page p' = busaddr dmah /\
        mmio m' HWS_PGA = u32 (busaddr dmah).
Proof.
  intros Hp. destruct m as [dp dn fb cn regs]. cbn in Hp. subst dp.
  destruct p. unfold i915_init_hwstatus.
  destruct (IS_G33 id); cbn.
  - destruct (r_search_free env); cbn;
      [| intros E Hr; apply Done_inj in E; destruct E as (E & _);
         subst ret; discriminate Hr].
    destruct (r_get_block env); cbn;
      [| intros E Hr; apply Done_inj in E; destruct E as (E & _);
         subst ret; discriminate Hr].
    destruct (r_ioremap env); cbn;
      [| intros E Hr; apply Done_inj in E; destruct E as (E & _);
         subst ret; discriminate Hr].
    intros E _. apply Done_inj in E. destruct E as (_ & <- & <-).
    eexists _, _. repeat split. eexists. repeat split.
  - destruct (r_drm_pci_alloc env); cbn;
      [| intros E Hr; apply Done_inj in E; destruct E as (E & _);
         subst ret; discriminate Hr].
    intros E _. apply Done_inj in E. destruct E as (_ & <- & <-).
    eexists _, _. repeat split. eexists. repeat split.
Qed.

(** X5: from a private state whose status-page fields are NULL (as load
    leaves them), teardown after init gives back exactly what init
    acquired, in reverse order, whatever init returned; this includes
    the block a refused mapping leaves pinned.  The register ends at
    the disabled sentinel. *)
Theorem init_then_cleanup_balanced K id env m p :
  dev_private m = Some p ->
  status_page_unset p ->
  exists ret m1 evs1 m2 evs2,
    i915_init_hwstatus K id env m = Done ret m1 evs1 /\
    i915_cleanup_hwstatus id m1 = Done tt m2 evs2 /\
    released evs2 = rev (acquired evs1) /\
    held (evs1 ++ evs2) = [] /\
    mmio m2 HWS_PGA = 0x1ffff000.
Proof.
  intros Hp (Hd & Hh & Hm). destruct m as [dp dn fb cn regs]. cbn in Hp. subst dp.
  destruct p as [? ? ? ? ? ? ? dmah ? ? blk ? [? ? ? ? ? hdl] ? ? ?].
  cbn in Hd, Hh, Hm. subst dmah blk hdl.
  unfold i915_init_hwstatus, i915_cleanup_hwstatus.
  destruct (IS_G33 id); cbn.
  - destruct (r_search_free env); cbn;
      [| eexists _, _, _, _, _; repeat split].
    destruct (r_get_block env); cbn;
      [| eexists _, _, _, _, _; repeat split].
    destruct (r_ioremap env); cbn;
      eexists _, _, _, _, _; repeat split.
  - destruct (r_drm_pci_alloc env); cbn;
      eexists _, _, _, _, _; repeat split.
Qed.

(** X6: status-page teardown never clears the fields it frees: it leaves
    the private state exactly as it found it, so a second teardown makes
    the same calls again, freeing the same coherent page (or unmapping
    and unpinning the same block) a second time. *)
Theorem cleanup_hwstatus_keeps_fields id m p :
  dev_private m = Some p ->
  exists m1 m2 evs,
    i915_cleanup_hwstatus id m = Done tt m1 evs /\
    dev_private m1 = Some p /\
    devname m1 = devname m /\
    i915_cleanup_hwstatus id m1 = Done tt m2 evs /\
    released evs =
      (if IS_G33 id then
         (match handle (hws_map p) with Some _ => [R_hws_mapping] | None => [] end)
         ++ (match hws p with Some _ => [R_stolen_block] | None => [] end)
       else
         match status_page_dmah p with Some _ => [R_dma_page] | None => [] end).
Proof.
  intros Hp. destruct m as [dp dn fb cn regs]. cbn in Hp. subst dp.
  destruct p as [? ? ? ? ? ? ? dmah ? ? blk ? [? ? ? ? ? hdl] ? ? ?].
  unfold i915_cleanup_hwstatus.
  destruct (IS_G33 id); cbn.
  - destruct hdl, blk; cbn; eexists _, _, _; repeat split.
  - destruct dmah; cbn; eexists _, _, _; repeat split.
Qed.

(** X21: status-page init returns 0, -ENOMEM or -EINVAL and nothing
    else; 0 exactly when the collaborators of the chosen strategy all
    answer, and -EINVAL exactly when, on G33, a free block was found but
    could not be pinned (every other failure is reported as
    -ENOMEM). *)
Theorem init_hwstatus_error_codes K id env m p :
  dev_private m = Some p ->
  exists ret m' evs,
    i915_init_hwstatus K id env m = Done ret m' evs /\
    (ret = 0 \/ ret = - ENOMEM \/ ret = - EINVAL) /\
    (ret = 0 <-> hwstatus_answers_ok id env = true) /\
    (ret = - EINVAL <->
     IS_G33 id = true /\ r_search_free env <> None /\ r_get_block env = None).
Proof.
  intros Hp. destruct m as [dp dn fb cn regs]. cbn in Hp. subst dp.
  destruct p. unfold i915_init_hwstatus, hwstatus_answers_ok.
  destruct (IS_G33 id); cbn.
  - destruct (r_search_free env); cbn.
    + destruct (r_get_block env); cbn.
      * destruct (r_ioremap env); cbn;
          eexists _, _, _; (split; [reflexivity |]);
          (split; [auto |]); split; split;
          try reflexivity; try discriminate;
          intros (_ & _ & Hx); discriminate Hx.
      * eexists _, _, _; (split; [reflexivity |]);
          (split; [auto |]); split; split;
          try reflexivity; try discriminate.
        intros _. repeat split. discriminate.
    + eexists _, _, _; (split; [reflexivity |]);
        (split; [auto |]); split; split;
        try reflexivity; try discriminate.
      intros (_ & Hx & _). exfalso. apply Hx. reflexivity.
  - destruct (r_drm_pci_alloc env); cbn;
      eexists _, _, _; (split; [reflexivity |]);
      (split; [auto |]); split; split;
      try reflexivity; try discriminate;
      intros (Hx & _); discriminate Hx.
Qed.

(** ** Bring-up sequence *)

Ltac eqb_hyps :=
  repeat match goal with
  | Hb : (_ =? _) = true |- _ => apply Z.eqb_eq in Hb
  | Hb : (_ =? _) = false |- _ => apply Z.eqb_neq in Hb
  end.

(** X7: the bring-up sequence returns 0 exactly when the ring buffer,
    the status page, the work queue, the firmware tables, the name
    duplication and the interrupt install all succeed; what the
    capacity probe returned plays no part in it. *)
Theorem bringup_succeeds_iff K id env m p :
  dev_private m = Some p ->
  exists ret m' evs,
    i915_load_modeset_init K id env m = Done ret m' evs /\
    (ret = 0 <-> stages_succeed id env = true).
Proof.
  intros Hp. destruct m as [dp dn fb cn regs]. cbn in Hp. subst dp.
  destruct p as [? ? ? ? ? ? ? dmah ? ? blk ? [? ? ? ? ? hdl] ? ? ?].
  unfold stages_succeed, hwstatus_answers_ok.
  bringup_cases.
  all: eexists _, _, _; split; [reflexivity |].
  all: split; intros Hx;
       first [ reflexivity | discriminate Hx
             | exfalso; eqb_hyps; congruence ].
Qed.

(** X8: whenever the firmware-table discovery was reached and reported
    an error, the bring-up sequence returns -ENODEV, whatever code
    [intel_init_bios] gave; the ring-buffer and interrupt stages, by
    contrast, pass their own code through. *)
Theorem bringup_bios_failure_is_ENODEV K id env m p ret m' evs b :
  dev_private m = Some p ->
  i915_load_modeset_init K id env m = Done ret m' evs ->
  In (E_init_bios b) evs ->
  b <> 0 ->
  ret = - ENODEV /\ b = r_init_bios env.
Proof.
  intros Hp. destruct m as [dp dn fb cn regs]. cbn in Hp. subst dp.
  destruct p as [? ? ? ? ? ? ? dmah ? ? blk ? [? ? ? ? ? hdl] ? ? ?].
  bringup_cases.
  all: intros E Hin Hb; apply Done_inj in E; destruct E as (<- & _ & <-).
  all: cbn in Hin.
  all: repeat match goal with
       | Hd : _ \/ _ |- _ => destruct Hd as [Hd | Hd]
       | Hd : False |- _ => destruct Hd
       | Hd : _ = E_init_bios _ |- _ =>
           first [discriminate Hd | injection Hd as Hd]
       end.
  all: eqb_hyps; first [split; congruence | exfalso; congruence].
Qed.

(** What the bring-up sequence leaves alone (used again below). *)
Lemma bringup_keeps_load_fields K id env m p ret m' evs :
  dev_private m = Some p ->
  i915_load_modeset_init K id env m = Done ret m' evs ->
  exists p',
    dev_private m' = Some p' /\
    mmiobase p' = mmiobase p /\ mmiolen p' = mmiolen p /\
    mmio_map p' = mmio_map p /\
    cursor_needs_physical p' = cursor_needs_physical p /\
    stolen_base p' = stolen_base p /\
    next_gem_seqno p' = next_gem_seqno p /\
    fb_base m' = fb_base m /\ counters m' = counters m /\
    mmio m' PRB0_CTL = mmio m PRB0_CTL.
Proof.
  intros Hp. destruct m as [dp dn fb cn regs]. cbn in Hp. subst dp.
  destruct p as [? ? ? ? ? ? ? dmah ? ? blk ? [? ? ? ? ? hdl] ? ? ?].
  bringup_cases.
  all: intros E; apply Done_inj in E; destruct E as (_ & <- & _).
  all: eexists; repeat split.
Qed.

(** X9: no statement of this file that runs during the bring-up (the
    sequence itself, status-page init and teardown) assigns the
    register-window fields, the cursor flag or the stolen base of the
    private state, or the device's counters: the private state that
    comes out still records the window and the map that load
    installed.  What the collaborators called on the way do to the
    device is not part of this. *)
Theorem bringup_frame K id env m p ret m' evs :
  dev_private m = Some p ->
  i915_load_modeset_init K id env m = Done ret m' evs ->
  exists p',
    dev_private m' = Some p' /\
    mmiobase p' = mmiobase p /\ mmiolen p' = mmiolen p /\
    mmio_map p' = mmio_map p /\
    cursor_needs_physical p' = cursor_needs_physical p /\
    stolen_base p' = stolen_base p /\
    counters m' = counters m.
Proof.
  intros Hp E.
  destruct (bringup_keeps_load_fields K id env m p ret m' evs Hp E)
    as (p' & Hp' & F1 & F2 & F3 & F4 & F5 & _ & _ & F8 & _).
  exists p'. auto 10.
Qed.

(** X10: a failed bring-up never leaves the status register pointing at
    a status page: either the failing run wrote no register at all, or
    the last value it put in the status register is the disabled
    sentinel. *)
Theorem bringup_failure_disables_status_page K id env m p ret m' evs :
  dev_private m = Some p ->
  i915_load_modeset_init K id env m = Done ret m' evs ->
  ret <> 0 ->
  (no_write evs = true /\ forall r, mmio m' r = mmio m r)
  \/ (mmio m' HWS_PGA = 0x1ffff000 /\
      exists v pre post,
        evs = pre ++ E_write HWS_PGA v :: post
        /\ no_write pre = true
        /\ In (E_write HWS_PGA 0x1ffff000) post).
Proof.
  intros Hp. destruct m as [dp dn fb cn regs]. cbn in Hp. subst dp.
  destruct p as [? ? ? ? ? ? ? dmah ? ? blk ? [? ? ? ? ? hdl] ? ? ?].
  bringup_cases.
  all: intros E Hret; apply Done_inj in E; destruct E as (E1 & <- & <-);
       subst ret.
  all: try (exfalso; apply Hret; reflexivity).
  all: first
       [ left; split; [reflexivity | intros r; reflexivity]
       | right; split; [reflexivity |];
         first [ eexists _, [_; _; _; _], _;
                 split; [reflexivity |]; split; [reflexivity |];
                 cbn; auto 20
               | eexists _, [_; _; _; _; _; _], _;
                 split; [reflexivity |]; split; [reflexivity |];
                 cbn; auto 20 ] ].
Qed.

(** The shape of a successful bring-up (used again below). *)
Lemma bringup_success_shape K id env m p ret m' evs :
  dev_private m = Some p ->
  i915_load_modeset_init K id env m = Done ret m' evs ->
  ret = 0 ->
  released evs = [] /\
  acquired evs =
    [R_vram; R_ring]
    ++ (if IS_G33 id then [R_stolen_block; R_hws_mapping] else [R_dma_page])
    ++ [R_workqueue; R_modeset; R_devname; R_irq] /\
  exists p',
    dev_private m' = Some p' /\
    allow_batchbuffer p' = 1 /\
    max_validate_buffers p' = I915_MAX_VALIDATE_BUFFERS K /\
    wq p' = r_create_workqueue env /\ wq p' <> None /\
    devname m' = r_kstrdup env /\ devname m' <> None.
Proof.
  intros Hp. destruct m as [dp dn fb cn regs]. cbn in Hp. subst dp.
  destruct p as [? ? ? ? ? ? ? dmah ? ? blk ? [? ? ? ? ? hdl] ? ? ?].
  bringup_cases.
  all: intros E Hret; apply Done_inj in E; destruct E as (E1 & <- & <-);
       subst ret.
  all: try discriminate Hret.
  all: try (exfalso; eqb_hyps; congruence).
  all: cbv [released acquired flat_map acquires releases app];
       repeat match goal with Hb : (_ =? _) = _ |- _ => rewrite Hb end.
  all: split; [reflexivity |]; split; [reflexivity |].
  all: eexists; repeat split; discriminate.
Qed.

(** X11: a successful bring-up has acquired, in this order and without
    releasing anything, the range allocator, the ring buffer, the status
    page (one coherent page, or on G33 a pinned block and its mapping),
    the work queue, the mode-setting state, the driver name and the
    interrupt; it has allowed batch buffers, set the validate-buffer
    limit, and recorded the work queue and the name. *)
Theorem bringup_success_state K id env m p ret m' evs :
  dev_private m = Some p ->
  i915_load_modeset_init K id env m = Done ret m' evs ->
  ret = 0 ->
  released evs = [] /\
  acquired evs =
    [R_vram; R_ring]
    ++ (if IS_G33 id then [R_stolen_block; R_hws_mapping] else [R_dma_page])
    ++ [R_workqueue; R_modeset; R_devname; R_irq] /\
  exists p',
    dev_private m' = Some p' /\
    allow_batchbuffer p' = 1 /\
    max_validate_buffers p' = I915_MAX_VALIDATE_BUFFERS K /\
    wq p' = r_create_workqueue env /\ wq p' <> None /\
    devname m' = r_kstrdup env /\ devname m' <> None.
Proof. exact (bringup_success_shape K id env m p ret m' evs). Qed.

(** ** Load *)

(** When memory, register window and mapping are there, load reaches the
    point where it either returns or enters the bring-up sequence, with
    a private state that is zero except for what load itself set. *)
Lemma load_reaches_bringup K id env m :
  r_drm_alloc env = true ->
  IS_I9XX id = true \/ resource_start (pdev id) 1 <> 0 ->
  fst (r_addmap env) = 0 ->
  exists m0 p0,
    dev_private m0 = Some p0 /\
    i915_driver_load K id env m
    = prepend (load_prefix id env)
        ((if DRIVER_MODESET id then
            ret <- i915_load_modeset_init K id env ;;
            if ret <? 0 then out_rmmap ret else returns 0
          else returns 0) m0) /\
    cursor_needs_physical p0
      = ((IS_MOBILE id || IS_I9XX id) && negb (IS_I965G id || IS_G33 id))%bool /\
    stolen_base p0 = (if IS_I9XX id then r_stolen_base env else 0) /\
    mmiobase p0 = resource_start (pdev id) (if IS_I9XX id then 0 else 1) /\
    mmiolen p0 = resource_len (pdev id) (if IS_I9XX id then 0 else 1) /\
    mmio_map p0 = snd (r_addmap env) /\
    next_gem_seqno p0 = 1 /\
    vram p0 = None /\ wq p0 = None /\ status_page_unset p0 /\
    devname m0 = devname m /\
    fb_base m0
      = Z.land (resource_start (pdev id) (if IS_I9XX id then 2 else 0))
               0xff000000 /\
    counters m0 = counters m + 4 /\
    mmio m0 = mmio m.
Proof.
  intros Halloc Hwin Hmap.
  destruct m as [dp dn fb cn regs].
  unfold i915_driver_load, load_map_registers, load_prefix.
  rewrite Halloc, Hmap.
  assert (Hwin' : IS_I9XX id = false ->
                  (resource_start (pdev id) 1 =? 0) = false).
  { intros H9. destruct Hwin as [Hw | Hw]; [congruence |].
    apply Z.eqb_neq. exact Hw. }
  destruct (IS_I9XX id) eqn:H9; [| rewrite (Hwin' eq_refl)];
    destruct (IS_I965G id), (IS_G33 id), (IS_MOBILE id),
      (DRIVER_MODESET id); cbn.
  all: match goal with
       | |- context [bind (i915_load_modeset_init _ _ _) _ ?m0] =>
         exists m0; eexists; split; [reflexivity |];
         split; [destruct (bind _ _ m0); reflexivity |]
       | |- _ =>
         eexists _, _; split; [| split; [reflexivity |]]; [reflexivity |]
       end.
  all: unfold status_page_unset; repeat split.
Qed.

(** X13: without the mode-setting feature, load returns 0 once the
    register window is mapped and runs no stage of the bring-up
    sequence: it makes no call beyond the allocation, the stolen-base
    read and [drm_addmap], writes no register, and leaves the range
    allocator, the work queue and the status page unset. *)
Theorem load_without_modeset K id env m :
  r_drm_alloc env = true ->
  IS_I9XX id = true \/ resource_start (pdev id) 1 <> 0 ->
  fst (r_addmap env) = 0 ->
  DRIVER_MODESET id = false ->
  exists m' p',
    i915_driver_load K id env m = Done 0 m' (load_prefix id env) /\
    dev_private m' = Some p' /\
    mmio_map p' = snd (r_addmap env) /\
    next_gem_seqno p' = 1 /\
    vram p' = None /\ wq p' = None /\ status_page_unset p' /\
    devname m' = devname m /\
    mmio m' = mmio m.
Proof.
  intros Halloc Hwin Hmap Hms.
  destruct (load_reaches_bringup K id env m Halloc Hwin Hmap)
    as (m0 & p0 & Hp0 & E & _ & _ & _ & _ & Hmm & Hseq & Hv & Hwq & Hsp
        & Hdn & _ & _ & Hregs).
  rewrite Hms in E. cbn in E. rewrite app_nil_r in E.
  exists m0, p0. repeat split; try assumption; apply Hsp.
Qed.

(** The run of load when no register window is found. *)
Lemma load_no_window_run K id env m :
  r_drm_alloc env = true ->
  IS_I9XX id = false ->
  resource_start (pdev id) 1 = 0 ->
  exists m',
    i915_driver_load K id env m
    = Done (- ENODEV) m' [E_drm_alloc true; E_drm_free] /\
    dev_private m' <> None /\
    mmio m' = mmio m.
Proof.
  intros Halloc H9 Hw.
  destruct m as [dp dn fb cn regs].
  unfold i915_driver_load. rewrite Halloc, H9, Hw.
  destruct (IS_I965G id || IS_G33 id); cbn;
    (eexists; split; [reflexivity | split; [discriminate | reflexivity]]).
Qed.

(** X14: on a chip older than the 9xx generation whose BAR1 is absent,
    load gives up with -ENODEV before trying any mapping: it frees the
    private block it had just allocated and makes no other call, and
    [dev->dev_private] is left pointing at the freed block. *)
Theorem load_no_register_window K id env m :
  r_drm_alloc env = true ->
  IS_I9XX id = false ->
  resource_start (pdev id) 1 = 0 ->
  exists m',
    i915_driver_load K id env m
    = Done (- ENODEV) m' [E_drm_alloc true; E_drm_free] /\
    dev_private m' <> None /\
    mmio m' = mmio m.
Proof. exact (load_no_window_run K id env m). Qed.

(** The run of load when the register window cannot be mapped. *)
Lemma load_addmap_refused_run K id env m :
  r_drm_alloc env = true ->
  IS_I9XX id = true \/ resource_start (pdev id) 1 <> 0 ->
  fst (r_addmap env) <> 0 ->
  exists m' p',
    i915_driver_load K id env m
    = Done (fst (r_addmap env)) m'
        (E_drm_alloc true
         :: (if IS_I9XX id then [E_read_stolen_base] else [])
         ++ [E_addmap (resource_start (pdev id) (if IS_I9XX id then 0 else 1))
                      (resource_len (pdev id) (if IS_I9XX id then 0 else 1))
                      (fst (r_addmap env));
             E_drm_free]) /\
    dev_private m' = Some p' /\
    mmio_map p' = None /\
    mmio m' = mmio m.
Proof.
  intros Halloc Hwin Hmap.
  destruct m as [dp dn fb cn regs].
  unfold i915_driver_load, load_map_registers.
  rewrite Halloc.
  apply Z.eqb_neq in Hmap. rewrite Hmap.
  assert (Hwin' : IS_I9XX id = false ->
                  (resource_start (pdev id) 1 =? 0) = false).
  { intros H9. destruct Hwin as [Hw | Hw]; [congruence |].
    apply Z.eqb_neq. exact Hw. }
  destruct (IS_I9XX id) eqn:H9; [| rewrite (Hwin' eq_refl)];
    destruct (IS_I965G id || IS_G33 id); cbn;
    eexists _, _; repeat split.
Qed.

(** X15: when [drm_addmap] refuses the register window, load passes its
    code through unchanged, frees the private block, and neither
    records nor removes a mapping; the bring-up sequence is not
    entered. *)
Theorem load_addmap_failure K id env m :
  r_drm_alloc env = true ->
  IS_I9XX id = true \/ resource_start (pdev id) 1 <> 0 ->
  fst (r_addmap env) <> 0 ->
  exists m' p',
    i915_driver_load K id env m
    = Done (fst (r_addmap env)) m'
        (E_drm_alloc true
         :: (if IS_I9XX id then [E_read_stolen_base] else [])
         ++ [E_addmap (resource_start (pdev id) (if IS_I9XX id then 0 else 1))
                      (resource_len (pdev id) (if IS_I9XX id then 0 else 1))
                      (fst (r_addmap env));
             E_drm_free]) /\
    dev_private m' = Some p' /\
    mmio_map p' = None /\
    mmio m' = mmio m.
Proof. exact (load_addmap_refused_run K id env m). Qed.

(** What a failed bring-up acquired it has released, but for the range
    allocator and the block pinned before a refused mapping. *)
Lemma bringup_failure_gives_back K id env m p ret m' evs :
  dev_private m = Some p ->
  i915_load_modeset_init K id env m = Done ret m' evs ->
  ret <> 0 ->
  forall r, In r (acquired evs) ->
            In r (released evs) \/ r = R_vram \/ r = R_stolen_block.
Proof.
  intros Hp. destruct m as [dp dn fb cn regs]. cbn in Hp. subst dp.
  destruct p as [? ? ? ? ? ? ? dmah ? ? blk ? [? ? ? ? ? hdl] ? ? ?].
  bringup_cases.
  all: intros E Hret; apply Done_inj in E; destruct E as (E1 & _ & <-);
       subst ret.
  all: try (exfalso; apply Hret; reflexivity).
  all: cbv [released acquired flat_map acquires releases app];
       repeat match goal with Hb : (_ =? _) = _ |- _ => rewrite Hb end.
  all: intros r Hr; clear - Hr; cbn in Hr |- *; intuition auto.
Qed.

Lemma last_app_two {A} (l : list A) (a b d : A) :
  last (l ++ [a; b]) d = b.
Proof.
  induction l as [| x l IH]; [reflexivity |].
  cbn [app]. destruct l; [reflexivity |]. exact IH.
Qed.

Lemma acquired_app a b : acquired (a ++ b) = acquired a ++ acquired b.
Proof. apply flat_map_app. Qed.

Lemma released_app a b : released (a ++ b) = released a ++ released b.
Proof. apply flat_map_app. Qed.

Lemma load_prefix_acquired id env :
  acquired (load_prefix id env) = [R_private; R_mmio_map]
  /\ released (load_prefix id env) = [].
Proof.
  unfold load_prefix. destruct (IS_I9XX id); split; reflexivity.
Qed.

(** X12: a load that fails for any reason but lack of memory ends by
    freeing the private block, yet leaves [dev->dev_private] pointing at
    it; everything it acquired it has released, except possibly the
    range allocator of the stolen space and the status-page block that
    a refused mapping left pinned.  A load that finds no memory returns
    -ENOMEM having touched nothing. *)
Theorem load_failure_outcome K id env m ret m' evs :
  i915_driver_load K id env m = Done ret m' evs ->
  ret <> 0 ->
  (r_drm_alloc env = false /\ ret = - ENOMEM /\ m' = m
   /\ evs = [E_drm_alloc false])
  \/ (r_drm_alloc env = true /\
      last evs (E_drm_alloc true) = E_drm_free /\
      dev_private m' <> None /\
      forall r, In r (acquired evs) ->
                In r (released evs) \/ r = R_vram \/ r = R_stolen_block).
Proof.
  intros E Hret.
  destruct (r_drm_alloc env) eqn:Halloc.
  2:{ left. unfold i915_driver_load in E. rewrite Halloc in E. cbn in E.
      apply Done_inj in E. destruct E as (<- & <- & <-). auto. }
  right. split; [reflexivity |].
  destruct (IS_I9XX id) eqn:H9.
  - (* 9xx: the register window is BAR0 *)
    destruct (Z.eq_dec (fst (r_addmap env)) 0) as [Hmap | Hmap].
    + destruct (load_reaches_bringup K id env m Halloc
                  (or_introl H9) Hmap)
        as (m0 & p0 & Hp0 & E' & _ & _ & _ & _ & Hmm & _).
      rewrite E' in E. clear E'.
      destruct (DRIVER_MODESET id);
        [| cbn in E; apply Done_inj in E; destruct E as (<- & _);
           exfalso; apply Hret; reflexivity].
      destruct (load_modeset_init_total K id env m0 p0 Hp0)
        as (rb & m1 & eb & p1 & Eb & Hp1 & Hm1 & _).
      unfold bind in E. rewrite Eb in E.
      destruct (rb <? 0) eqn:Hlt;
        [| cbn in E; apply Done_inj in E; destruct E as (<- & _);
           exfalso; apply Hret; reflexivity].
      unfold out_rmmap, free_priv, bind, priv, emit, returns in E.
      rewrite Hp1 in E. cbn [app prepend] in E.
      apply Done_inj in E. destruct E as (<- & <- & <-).
      split; [rewrite app_assoc; apply last_app_two |].
      split; [rewrite Hp1; discriminate |].
      intros r Hr.
      rewrite !acquired_app in Hr. rewrite !released_app.
      destruct (load_prefix_acquired id env) as [-> ->] in Hr |- *.
      cbn in Hr. cbn [app].
      destruct Hr as [<- | [<- | Hr]].
      * left. apply in_or_app. right. cbn. auto.
      * left. apply in_or_app. right. cbn. auto.
      * rewrite app_nil_r in Hr.
        destruct (bringup_failure_gives_back K id env m0 p0 rb m1 eb
                    Hp0 Eb Hret r Hr) as [Hin | Hx]; [| auto].
        left. apply in_or_app. left. exact Hin.
    + destruct (load_addmap_refused_run K id env m Halloc (or_introl H9) Hmap)
        as (m1 & p1 & E' & Hp1 & _).
      rewrite E' in E. apply Done_inj in E. destruct E as (_ & <- & <-).
      rewrite H9. split; [reflexivity |].
      split; [rewrite Hp1; discriminate |].
      apply Z.eqb_neq in Hmap.
      intros r Hr. cbv [acquired released flat_map acquires releases app] in *.
      rewrite Hmap in Hr. cbn in Hr |- *. tauto.
  - destruct (Z.eq_dec (resource_start (pdev id) 1) 0) as [Hw | Hw].
    + destruct (load_no_window_run K id env m Halloc H9 Hw)
        as (m1 & E' & Hp1 & _).
      rewrite E' in E. apply Done_inj in E. destruct E as (_ & <- & <-).
      split; [reflexivity |]. split; [exact Hp1 |].
      intros r Hr. cbn in Hr |- *. tauto.
    + destruct (Z.eq_dec (fst (r_addmap env)) 0) as [Hmap | Hmap].
      * destruct (load_reaches_bringup K id env m Halloc
                    (or_intror Hw) Hmap)
          as (m0 & p0 & Hp0 & E' & _ & _ & _ & _ & Hmm & _).
        rewrite E' in E. clear E'.
        destruct (DRIVER_MODESET id);
          [| cbn in E; apply Done_inj in E; destruct E as (<- & _);
             exfalso; apply Hret; reflexivity].
        destruct (load_modeset_init_total K id env m0 p0 Hp0)
          as (rb & m1 & eb & p1 & Eb & Hp1 & Hm1 & _).
        unfold bind in E. rewrite Eb in E.
        destruct (rb <? 0) eqn:Hlt;
          [| cbn in E; apply Done_inj in E; destruct E as (<- & _);
             exfalso; apply Hret; reflexivity].
        unfold out_rmmap, free_priv, bind, priv, emit, returns in E.
        rewrite Hp1 in E. cbn [app prepend] in E.
        apply Done_inj in E. destruct E as (<- & <- & <-).
        split; [rewrite app_assoc; apply last_app_two |].
        split; [rewrite Hp1; discriminate |].
        intros r Hr.
        rewrite !acquired_app in Hr. rewrite !released_app.
        destruct (load_prefix_acquired id env) as [-> ->] in Hr |- *.
        cbn in Hr. cbn [app].
        destruct Hr as [<- | [<- | Hr]].
        -- left. apply in_or_app. right. cbn. auto.
        -- left. apply in_or_app. right. cbn. auto.
        -- rewrite app_nil_r in Hr.
           destruct (bringup_failure_gives_back K id env m0 p0 rb m1 eb
                       Hp0 Eb Hret r Hr) as [Hin | Hx]; [| auto].
           left. apply in_or_app. left. exact Hin.
      * destruct (load_addmap_refused_run K id env m Halloc (or_intror Hw) Hmap)
          as (m1 & p1 & E' & Hp1 & _).
        rewrite E' in E. apply Done_inj in E. destruct E as (_ & <- & <-).
        rewrite H9. split; [reflexivity |].
        split; [rewrite Hp1; discriminate |].
        apply Z.eqb_neq in Hmap.
        intros r Hr. cbv [acquired released flat_map acquires releases app] in *.
        rewrite Hmap in Hr. cbn in Hr |- *. tauto.
Qed.

Lemma land_ff000000_aligned x : Z.land x 0xff000000 mod 2 ^ 24 = 0.
Proof.
  rewrite <- (Z.land_ones _ 24) by lia.
  rewrite <- Z.land_assoc.
  change (Z.land 0xff000000 (Z.ones 24)) with 0.
  apply Z.land_0_r.
Qed.

(** X16: after a load that returned 0 the private state holds the
    register window of the chip's generation (BAR0 on 9xx, BAR1
    before) and the map [drm_addmap] installed for it; the cursor needs
    physical memory exactly on mobile or 9xx chips that are neither
    965-class nor G33; the sequence counter starts at 1; four counters
    were added; and the frame-buffer base is the aperture BAR (BAR2 on
    9xx, BAR0 before) cut down to a multiple of 16 MiB. *)
Theorem load_success_fields K id env m m' evs :
  i915_driver_load K id env m = Done 0 m' evs ->
  exists p',
    dev_private m' = Some p' /\
    mmiobase p' = resource_start (pdev id) (if IS_I9XX id then 0 else 1) /\
    mmiolen p' = resource_len (pdev id) (if IS_I9XX id then 0 else 1) /\
    mmio_map p' = snd (r_addmap env) /\
    cursor_needs_physical p'
      = ((IS_MOBILE id || IS_I9XX id) && negb (IS_I965G id || IS_G33 id))%bool /\
    next_gem_seqno p' = 1 /\
    counters m' = counters m + 4 /\
    fb_base m'
      = Z.land (resource_start (pdev id) (if IS_I9XX id then 2 else 0))
               0xff000000 /\
    fb_base m' mod 2 ^ 24 = 0.
Proof.
  intros E.
  assert (Halloc : r_drm_alloc env = true).
  { destruct (r_drm_alloc env) eqn:Ha; [reflexivity |].
    unfold i915_driver_load in E. rewrite Ha in E. cbn in E.
    apply Done_inj in E. destruct E as (E & _). discriminate E. }
  assert (Hwin : IS_I9XX id = true \/ resource_start (pdev id) 1 <> 0).
  { destruct (IS_I9XX id) eqn:H9; [auto | right]. intros Hw.
    destruct (load_no_window_run K id env m Halloc H9 Hw)
      as (m1 & E' & _).
    rewrite E' in E. apply Done_inj in E. destruct E as (E & _).
    discriminate E. }
  assert (Hmap : fst (r_addmap env) = 0).
  { destruct (Z.eq_dec (fst (r_addmap env)) 0) as [Hz | Hnz]; [exact Hz |].
    destruct (load_addmap_refused_run K id env m Halloc Hwin Hnz)
      as (m1 & p1 & E' & _).
    rewrite E' in E. apply Done_inj in E. destruct E as (E & _).
    congruence. }
  destruct (load_reaches_bringup K id env m Halloc Hwin Hmap)
    as (m0 & p0 & Hp0 & E' & Hc & _ & Hb & Hl & Hmm & Hseq & _ & _ & _
        & _ & Hfb & Hcn & _).
  rewrite E' in E. clear E'.
  assert (Hfin : exists p',
             dev_private m' = Some p' /\
             mmiobase p' = mmiobase p0 /\ mmiolen p' = mmiolen p0 /\
             mmio_map p' = mmio_map p0 /\
             cursor_needs_physical p' = cursor_needs_physical p0 /\
             next_gem_seqno p' = next_gem_seqno p0 /\
             fb_base m' = fb_base m0 /\ counters m' = counters m0).
  { destruct (DRIVER_MODESET id).
    - destruct (load_modeset_init_total K id env m0 p0 Hp0)
        as (rb & m1 & eb & p1 & Eb & Hp1 & _).
      destruct (bringup_keeps_load_fields K id env m0 p0 rb m1 eb Hp0 Eb)
        as (p1' & Hp1' & F1 & F2 & F3 & F4 & _ & F6 & F7 & F8 & _).
      unfold bind in E. rewrite Eb in E.
      destruct (rb <? 0).
      + unfold out_rmmap, free_priv, bind, priv, emit, returns in E.
        rewrite Hp1 in E. cbn [app prepend] in E.
        apply Done_inj in E. destruct E as (_ & <- & _).
        exists p1'. auto 10.
      + cbn in E. apply Done_inj in E. destruct E as (_ & <- & _).
        exists p1'. auto 10.
    - cbn in E. apply Done_inj in E. destruct E as (_ & <- & _).
      exists p0. auto 10. }
  destruct Hfin as (p' & Hp' & G1 & G2 & G3 & G4 & G5 & G6 & G7).
  exists p'. rewrite G1, G2, G3, G4, G5, G6, G7, Hb, Hl, Hmm, Hc, Hseq, Hfb, Hcn.
  repeat split; try reflexivity; try assumption.
  apply land_ff000000_aligned.
Qed.

(** ** Load, then unload *)

(** Unload after a successful bring-up. *)
Lemma bringup_then_unload K id env m p m1 evs1 :
  dev_private m = Some p ->
  DRIVER_MODESET id = true ->
  i915_load_modeset_init K id env m = Done 0 m1 evs1 ->
  exists m2 evs2,
    i915_driver_unload id m1 = Done 0 m2 evs2 /\
    released evs2
    = [R_irq; R_modeset; R_workqueue]
      ++ (if IS_G33 id then [R_hws_mapping; R_stolen_block] else [R_dma_page])
      ++ [R_ring; R_vram; R_mmio_map; R_private] /\
    dev_private m2 = None /\
    devname m2 = devname m1 /\
    mmio m2 HWS_PGA = 0x1ffff000 /\ mmio m2 PRB0_CTL = 0.
Proof.
  intros Hp Hms. destruct m as [dp dn fb cn regs]. cbn in Hp. subst dp.
  destruct p as [? ? ? ? ? ? ? dmah ? ? blk ? [? ? ? ? ? hdl] ? ? ?].
  unfold i915_driver_unload. rewrite Hms.
  bringup_cases.
  all: intros E; apply Done_inj in E; destruct E as (E1 & <- & _).
  all: try discriminate E1.
  all: try (exfalso; eqb_hyps; congruence).
  all: cbn; eexists _, _; repeat split.
Qed.

(** Unload of a device that was loaded without mode setting. *)
Lemma unload_after_plain_load id m p :
  dev_private m = Some p ->
  status_page_unset p ->
  DRIVER_MODESET id = false ->
  exists m2 evs2,
    i915_driver_unload id m = Done 0 m2 evs2 /\
    released evs2 = [R_mmio_map; R_private] /\
    dev_private m2 = None /\
    devname m2 = devname m /\
    mmio m2 HWS_PGA = 0x1ffff000 /\ mmio m2 PRB0_CTL = 0.
Proof.
  intros Hp (Hd & Hh & Hm) Hms.
  destruct m as [dp dn fb cn regs]. cbn in Hp. subst dp.
  destruct p as [? ? ? ? ? ? ? dmah ? ? blk ? [? ? ? ? ? hdl] ? ? ?].
  cbn in Hd, Hh, Hm. subst dmah blk hdl.
  unfold i915_driver_unload, i915_cleanup_hwstatus. rewrite Hms.
  destruct (IS_G33 id); cbn; eexists _, _; repeat split.
Qed.

(** The run of unload after a load that returned 0. *)
Lemma load_then_unload_run K id env m m1 evs1 :
  i915_driver_load K id env m = Done 0 m1 evs1 ->
  r_init_ringbuffer env <= 0 ->
  r_irq_install env <= 0 ->
  exists m2 evs2,
    i915_driver_unload id m1 = Done 0 m2 evs2 /\
    released evs1 = [] /\
    released evs2 = remove resource_eq_dec R_devname (rev (acquired evs1)) /\
    dev_private m2 = None /\
    devname m2 = devname m1 /\
    mmio m2 HWS_PGA = 0x1ffff000 /\ mmio m2 PRB0_CTL = 0 /\
    NoDup (released evs2) /\
    (DRIVER_MODESET id = false -> released evs2 = [R_mmio_map; R_private]).
Proof.
  intros E Hring Hirq.
  assert (Halloc : r_drm_alloc env = true).
  { destruct (r_drm_alloc env) eqn:Ha; [reflexivity |].
    unfold i915_driver_load in E. rewrite Ha in E. cbn in E.
    apply Done_inj in E. destruct E as (E & _). discriminate E. }
  assert (Hwin : IS_I9XX id = true \/ resource_start (pdev id) 1 <> 0).
  { destruct (IS_I9XX id) eqn:H9; [auto | right]. intros Hw.
    destruct (load_no_window_run K id env m Halloc H9 Hw)
      as (mx & E' & _).
    rewrite E' in E. apply Done_inj in E. destruct E as (E & _).
    discriminate E. }
  assert (Hmap : fst (r_addmap env) = 0).
  { destruct (Z.eq_dec (fst (r_addmap env)) 0) as [Hz | Hnz]; [exact Hz |].
    destruct (load_addmap_refused_run K id env m Halloc Hwin Hnz)
      as (mx & px & E' & _).
    rewrite E' in E. apply Done_inj in E. destruct E as (E & _).
    congruence. }
  destruct (load_reaches_bringup K id env m Halloc Hwin Hmap)
    as (m0 & p0 & Hp0 & E' & _ & _ & _ & _ & _ & _ & _ & _ & Hsp & _).
  rewrite E' in E. clear E'.
  destruct (load_prefix_acquired id env) as [Hpa Hpr].
  destruct (DRIVER_MODESET id) eqn:Hms.
  - destruct (load_modeset_init_total K id env m0 p0 Hp0)
      as (rb & mb & eb & p1 & Eb & Hp1 & _ & Hneg).
    specialize (Hneg Hring Hirq).
    unfold bind in E. rewrite Eb in E.
    destruct (Z.ltb_spec rb 0) as [Hlt | Hge].
    + unfold out_rmmap, free_priv, bind, priv, emit, returns in E.
      rewrite Hp1 in E. cbn [app prepend] in E.
      apply Done_inj in E. destruct E as (E & _). lia.
    + cbn [returns prepend] in E.
      apply Done_inj in E. destruct E as (_ & <- & <-).
      assert (rb = 0) by lia. subst rb.
      destruct (bringup_success_shape K id env m0 p0 0 mb eb Hp0 Eb eq_refl)
        as (Hrel & Hacq & _).
      destruct (bringup_then_unload K id env m0 p0 mb eb Hp0 Hms Eb)
        as (m2 & evs2 & Eu & Hr2 & Hd2 & Hn2 & Hs2 & Hc2).
      exists m2, evs2.
      rewrite app_nil_r, released_app, acquired_app, Hpr, Hpa, Hrel, Hacq, Hr2.
      split; [exact Eu |]. split; [reflexivity |].
      split; [destruct (IS_G33 id); reflexivity |].
      repeat (split; [assumption |]).
      split; [| discriminate].
      destruct (IS_G33 id); repeat constructor; cbn; intuition discriminate.
  - cbn [returns prepend] in E.
    apply Done_inj in E. destruct E as (_ & <- & <-).
    destruct (unload_after_plain_load id m0 p0 Hp0 Hsp Hms)
      as (m2 & evs2 & Eu & Hr2 & Hd2 & Hn2 & Hs2 & Hc2).
    exists m2, evs2.
    rewrite app_nil_r, Hpr, Hpa, Hr2.
    split; [exact Eu |]. split; [reflexivity |].
    split; [reflexivity |].
    repeat (split; [assumption |]).
    split; [| reflexivity].
    repeat constructor; cbn; intuition discriminate.
Qed.


(** X17: unload after a load that returned 0 gives back what load
    acquired in exactly the reverse order of acquisition, with one
    exception: the duplicated driver name, which unload never frees
    (in this file [dev->devname] is freed only when the interrupt
    install fails).  Load itself released nothing; unload leaves
    [dev->dev_private] NULL, the ring control register at 0 and the
    status register at the disabled sentinel.  The ring-buffer and
    interrupt collaborators are taken to report errors as negative
    values. *)
Theorem load_unload_round_trip K id env m m1 evs1 :
  i915_driver_load K id env m = Done 0 m1 evs1 ->
  r_init_ringbuffer env <= 0 ->
  r_irq_install env <= 0 ->
  exists m2 evs2,
    i915_driver_unload id m1 = Done 0 m2 evs2 /\
    released evs1 = [] /\
    released evs2 = remove resource_eq_dec R_devname (rev (acquired evs1)) /\
    dev_private m2 = None /\
    devname m2 = devname m1 /\
    mmio m2 HWS_PGA = 0x1ffff000 /\ mmio m2 PRB0_CTL = 0.
Proof.
  intros E Hring Hirq.
  destruct (load_then_unload_run K id env m m1 evs1 E Hring Hirq)
    as (m2 & evs2 & Eu & Hr1 & Hr2 & Hd & Hn & Hs & Hc & _).
  exists m2, evs2. auto 10.
Qed.

Lemma unload_without_private id m :
  dev_private m = None -> i915_driver_unload id m = Oops m [].
Proof.
  intros Hn. unfold i915_driver_unload, I915_WRITE, bind, priv.
  rewrite Hn. reflexivity.
Qed.

(** C7, as the code has it: unload on a device that a successful load
    brought up returns 0, releases only what load acquired and nothing
    twice (after a load without mode setting the status-page fields are
    NULL and the status-page teardown skips them), and leaves
    [dev->dev_private] NULL; a second unload in a row then faults on the
    NULL private state at its first register write, before releasing
    anything.  The ring-buffer and interrupt collaborators are taken to
    report errors as negative values. *)
Theorem unload_once_then_fault K id env m0 m evs0 :
  i915_driver_load K id env m0 = Done 0 m evs0 ->
  r_init_ringbuffer env <= 0 ->
  r_irq_install env <= 0 ->
  exists m1 evs,
    i915_driver_unload id m = Done 0 m1 evs /\
    dev_private m1 = None /\
    NoDup (released evs) /\
    incl (released evs) (acquired evs0) /\
    (DRIVER_MODESET id = false -> released evs = [R_mmio_map; R_private]) /\
    i915_driver_unload id m1 = Oops m1 [].
Proof.
  intros E Hring Hirq.
  destruct (load_then_unload_run K id env m0 m evs0 E Hring Hirq)
    as (m1 & evs & Eu & _ & Hr2 & Hd & _ & _ & _ & Hnd & Hplain).
  exists m1, evs.
  split; [exact Eu |]. split; [exact Hd |]. split; [exact Hnd |].
  split; [| split; [exact Hplain | apply unload_without_private; exact Hd]].
  intros r Hr. rewrite Hr2 in Hr.
  apply in_remove in Hr. destruct Hr as [Hr _].
  apply in_rev in Hr. exact Hr.
Qed.

Lemma unload_once_then_fault_witness :
  exists m1 evs,
    i915_driver_unload (sample_identity true true)
      (outcome_machine (load_run true (all_fine 0x30))) = Done 0 m1 evs /\
    dev_private m1 = None /\
    NoDup (released evs) /\
    incl (released evs)
         (acquired (outcome_trace (load_run true (all_fine 0x30)))) /\
    (DRIVER_MODESET (sample_identity true true) = false ->
     released evs = [R_mmio_map; R_private]) /\
    i915_driver_unload (sample_identity true true) m1 = Oops m1 [].
Proof.
  apply (unload_once_then_fault sample_header (sample_identity true true)
           (all_fine 0x30) fresh_machine
           (outcome_machine (load_run true (all_fine 0x30)))
           (outcome_trace (load_run true (all_fine 0x30)))).
  - vm_compute. reflexivity.
  - vm_compute. discriminate.
  - vm_compute. discriminate.
Defined.

(** ** Master private state *)

(** X18: a master created with result 0 carries a private block whose
    SAREA pointer lies [sizeof(struct drm_sarea)] past the start of the
    mapped area, with the page-flip field there set to 0; the area was
    requested at offset 0 with size max(SAREA_MAX, PAGE_SIZE), hence
    at least one page and at least SAREA_MAX; destroying the master
    then removes the map, frees the block (the reverse of the order
    they were acquired in) and leaves [driver_priv] NULL. *)
Theorem master_create_destroy_round_trip H env master ret master1 evs1 :
  i915_master_create H env master = (ret, master1, evs1) ->
  ret = 0 ->
  exists mp map,
    driver_priv master1 = Some mp /\
    sarea mp = Some map /\ map = snd (r_sarea_addmap env) /\
    sarea_priv mp = Some (map_handle map + sizeof_drm_sarea H) /\
    evs1 = [ME_calloc true;
            ME_addmap 0 (Z.max (SAREA_MAX H) PAGE_SIZE) 0;
            ME_store_pf_current_page (map_handle map + sizeof_drm_sarea H) 0] /\
    PAGE_SIZE <= Z.max (SAREA_MAX H) PAGE_SIZE /\
    SAREA_MAX H <= Z.max (SAREA_MAX H) PAGE_SIZE /\
    i915_master_destroy master1
      = ({| driver_priv := None |}, [ME_rmmap map; ME_free]) /\
    master_released (snd (i915_master_destroy master1))
      = rev (master_acquired evs1).
Proof.
  unfold i915_master_create.
  destruct (r_calloc env); cbn [negb].
  2:{ intros E Hr. apply pair_equal_spec in E. destruct E as [E _].
      apply pair_equal_spec in E. destruct E as [E _].
      subst ret. discriminate Hr. }
  destruct (fst (r_sarea_addmap env) =? 0) eqn:Hz; cbn [negb].
  2:{ intros E Hr. apply pair_equal_spec in E. destruct E as [E _].
      apply pair_equal_spec in E. destruct E as [E _].
      apply Z.eqb_neq in Hz. congruence. }
  intros E _. apply pair_equal_spec in E. destruct E as [E <-].
  apply pair_equal_spec in E. destruct E as [_ <-].
  apply Z.eqb_eq in Hz. rewrite Hz.
  eexists _, _. repeat split; try reflexivity.
  - apply Z.le_max_r.
  - apply Z.le_max_l.
Qed.

(** X19: when [drm_addmap] refuses the SAREA, create returns its code
    and leaves the master as it was: the block [drm_calloc] just
    returned is neither freed nor recorded, so a later destroy of a
    master that had no private state finds nothing to free. *)
Theorem master_create_addmap_failure_leaks H env master :
  r_calloc env = true ->
  fst (r_sarea_addmap env) <> 0 ->
  exists evs,
    i915_master_create H env master = (fst (r_sarea_addmap env), master, evs) /\
    master_acquired evs = [MR_private] /\
    master_released evs = [] /\
    (driver_priv master = None ->
     i915_master_destroy master = (master, [])).
Proof.
  intros Hc Hz. unfold i915_master_create. rewrite Hc.
  apply Z.eqb_neq in Hz. rewrite Hz. cbn [negb].
  eexists. split; [reflexivity |].
  cbv [master_acquired master_released flat_map master_acquires
       master_releases app].
  rewrite Hz. repeat split.
  intros Hn. unfold i915_master_destroy. rewrite Hn. reflexivity.
Qed.

(** X20: destroy tolerates a master without private state and clears
    the pointer it frees, so a second destroy in a row makes no call and
    changes nothing: nothing is unmapped or freed twice. *)
Theorem master_destroy_idempotent master :
  driver_priv (fst (i915_master_destroy master)) = None /\
  i915_master_destroy (fst (i915_master_destroy master))
    = (fst (i915_master_destroy master), []) /\
  NoDup (master_released (snd (i915_master_destroy master))).
Proof.
  unfold i915_master_destroy.
  destruct master as [[[[map |] sp] |]]; cbn;
    repeat split; repeat constructor; cbn; intuition discriminate.
Qed.

(** ** Instances of the further properties *)

Lemma probe_disabled_fails_witness :
  i915_probe_agp sample_header (Some (bridge_with 0x01))
    (sample_pdev 0x3582 0) 7 9
  = (-1, 64 * MiB, 1024 * 1024).
Proof.
  exact (probe_disabled_fails sample_header (bridge_with 0x01)
           (sample_pdev 0x3582 0) 7 9 eq_refl eq_refl).
Defined.

Lemma probe_overhead_wraps_witness :
  i915_probe_agp sample_header (Some (bridge_with 0x10))
    (sample_pdev 0x29C2 (1024 * MiB)) 0 0
  = (0, 1024 * MiB, 2 ^ 64 - (1024 * MiB / 1024 + 4096 - 1 * MiB))
  /\ 1024 * MiB < 2 ^ 64 - (1024 * MiB / 1024 + 4096 - 1 * MiB).
Proof.
  apply (probe_overhead_wraps sample_header (bridge_with 0x10)
           (sample_pdev 0x29C2 (1024 * MiB)) 0 0).
  - reflexivity.
  - reflexivity.
  - vm_compute. split; discriminate.
  - reflexivity.
Defined.

Lemma init_hwstatus_success_state_witness :
  exists p' va,
    dev_private (outcome_machine hwstatus_run_g33) = Some p' /\
    hws_vaddr p' = Some va /\
    last (outcome_trace hwstatus_run_g33) E_drm_free
      = E_memset_page (Some va) /\
    exists blk,
      r_get_block (all_fine 0x30) = Some blk /\ hws p' = Some blk /\
      r_ioremap (all_fine 0x30) = Some va /\
      hws_agpoffset p' = start blk /\
      offset (hws_map p')
        = ulong sample_header (agp_base (sample_identity true true) + start blk) /\
      size (hws_map p') = PAGE_SIZE /\
      handle (hws_map p') = Some va /\
      mmio (outcome_machine hwstatus_run_g33) HWS_PGA = u32 (start blk).
Proof.
  exact (init_hwstatus_success_state sample_header (sample_identity true true)
           (all_fine 0x30) (loaded_machine zeroed_private) zeroed_private
           0 (outcome_machine hwstatus_run_g33)
           (outcome_trace hwstatus_run_g33) eq_refl eq_refl eq_refl).
Defined.

Lemma init_then_cleanup_balanced_witness :
  exists ret m1 evs1 m2 evs2,
    i915_init_hwstatus sample_header (sample_identity true true) ioremap_fails
      (loaded_machine zeroed_private) = Done ret m1 evs1 /\
    i915_cleanup_hwstatus (sample_identity true true) m1 = Done tt m2 evs2 /\
    released evs2 = rev (acquired evs1) /\
    held (evs1 ++ evs2) = [] /\
    mmio m2 HWS_PGA = 0x1ffff000.
Proof.
  apply (init_then_cleanup_balanced sample_header (sample_identity true true)
           ioremap_fails (loaded_machine zeroed_private) zeroed_private).
  - reflexivity.
  - repeat split.
Defined.

Lemma cleanup_hwstatus_keeps_fields_witness :
  exists m1 m2 evs,
    i915_cleanup_hwstatus (sample_identity false true)
      (loaded_machine (set_status_page_dmah (Some sample_dmah) zeroed_private))
      = Done tt m1 evs /\
    dev_private m1
      = Some (set_status_page_dmah (Some sample_dmah) zeroed_private) /\
    devname m1
      = devname (loaded_machine
                   (set_status_page_dmah (Some sample_dmah) zeroed_private)) /\
    i915_cleanup_hwstatus (sample_identity false true) m1 = Done tt m2 evs /\
    released evs = [R_dma_page].
Proof.
  exact (cleanup_hwstatus_keeps_fields (sample_identity false true)
           (loaded_machine
              (set_status_page_dmah (Some sample_dmah) zeroed_private))
           (set_status_page_dmah (Some sample_dmah) zeroed_private) eq_refl).
Defined.

Lemma init_hwstatus_error_codes_witness :
  exists ret m' evs,
    i915_init_hwstatus sample_header (sample_identity true true) ioremap_fails
      (loaded_machine zeroed_private) = Done ret m' evs /\
    (ret = 0 \/ ret = - ENOMEM \/ ret = - EINVAL) /\
    (ret = 0 <->
     hwstatus_answers_ok (sample_identity true true) ioremap_fails = true) /\
    (ret = - EINVAL <->
     IS_G33 (sample_identity true true) = true /\
     r_search_free ioremap_fails <> None /\ r_get_block ioremap_fails = None).
Proof.
  exact (init_hwstatus_error_codes sample_header (sample_identity true true)
           ioremap_fails (loaded_machine zeroed_private) zeroed_private
           eq_refl).
Defined.

Lemma bringup_succeeds_iff_witness :
  exists ret m' evs,
    i915_load_modeset_init sample_header (sample_identity false true)
      (all_fine 0x00) (loaded_machine zeroed_private) = Done ret m' evs /\
    (ret = 0 <->
     stages_succeed (sample_identity false true) (all_fine 0x00) = true).
Proof.
  exact (bringup_succeeds_iff sample_header (sample_identity false true)
           (all_fine 0x00) (loaded_machine zeroed_private) zeroed_private
           eq_refl).
Defined.

Lemma bringup_bios_failure_is_ENODEV_witness :
  - ENODEV = - ENODEV /\ -5 = r_init_bios bios_fails.
Proof.
  apply (bringup_bios_failure_is_ENODEV sample_header
           (sample_identity false true) bios_fails
           (loaded_machine zeroed_private) zeroed_private (- ENODEV)
           (outcome_machine (bringup_run false bios_fails))
           (outcome_trace (bringup_run false bios_fails)) (-5)).
  - reflexivity.
  - vm_compute. reflexivity.
  - vm_compute. auto 20.
  - discriminate.
Defined.

Lemma bringup_frame_witness :
  exists p',
    dev_private (outcome_machine (bringup_run true (all_fine 0x30))) = Some p' /\
    mmiobase p' = mmiobase zeroed_private /\
    mmiolen p' = mmiolen zeroed_private /\
    mmio_map p' = mmio_map zeroed_private /\
    cursor_needs_physical p' = cursor_needs_physical zeroed_private /\
    stolen_base p' = stolen_base zeroed_private /\
    counters (outcome_machine (bringup_run true (all_fine 0x30)))
      = counters (loaded_machine zeroed_private).
Proof.
  apply (bringup_frame sample_header (sample_identity true true)
           (all_fine 0x30) (loaded_machine zeroed_private) zeroed_private 0
           (outcome_machine (bringup_run true (all_fine 0x30)))
           (outcome_trace (bringup_run true (all_fine 0x30)))).
  - reflexivity.
  - vm_compute. reflexivity.
Defined.

Lemma bringup_failure_disables_status_page_witness :
  (no_write (outcome_trace (bringup_run false irq_install_fails)) = true /\
   forall r, mmio (outcome_machine (bringup_run false irq_install_fails)) r
             = mmio (loaded_machine zeroed_private) r)
  \/ (mmio (outcome_machine (bringup_run false irq_install_fails)) HWS_PGA
      = 0x1ffff000 /\
      exists v pre post,
        outcome_trace (bringup_run false irq_install_fails)
        = pre ++ E_write HWS_PGA v :: post
        /\ no_write pre = true
        /\ In (E_write HWS_PGA 0x1ffff000) post).
Proof.
  apply (bringup_failure_disables_status_page sample_header
           (sample_identity false true) irq_install_fails
           (loaded_machine zeroed_private) zeroed_private (-16)
           (outcome_machine (bringup_run false irq_install_fails))
           (outcome_trace (bringup_run false irq_install_fails))).
  - reflexivity.
  - vm_compute. reflexivity.
  - discriminate.
Defined.

Lemma bringup_success_state_witness :
  released (outcome_trace (bringup_run true (all_fine 0x30))) = [] /\
  acquired (outcome_trace (bringup_run true (all_fine 0x30)))
  = [R_vram; R_ring] ++ [R_stolen_block; R_hws_mapping]
    ++ [R_workqueue; R_modeset; R_devname; R_irq] /\
  exists p',
    dev_private (outcome_machine (bringup_run true (all_fine 0x30))) = Some p' /\
    allow_batchbuffer p' = 1 /\
    max_validate_buffers p' = I915_MAX_VALIDATE_BUFFERS sample_header /\
    wq p' = r_create_workqueue (all_fine 0x30) /\ wq p' <> None /\
    devname (outcome_machine (bringup_run true (all_fine 0x30)))
      = r_kstrdup (all_fine 0x30) /\
    devname (outcome_machine (bringup_run true (all_fine 0x30))) <> None.
Proof.
  apply (bringup_success_state sample_header (sample_identity true true)
           (all_fine 0x30) (loaded_machine zeroed_private) zeroed_private 0
           (outcome_machine (bringup_run true (all_fine 0x30)))
           (outcome_trace (bringup_run true (all_fine 0x30)))).
  - reflexivity.
  - vm_compute. reflexivity.
  - reflexivity.
Defined.

Lemma bringup_failure_rollback_witness :
  incl (held (outcome_trace (bringup_run true irq_install_fails)))
       [R_stolen_block; R_vram] /\
  (In R_stolen_block (held (outcome_trace (bringup_run true irq_install_fails))) ->
   IS_G33 (sample_identity true true) = true
   /\ r_ioremap irq_install_fails = None) /\
  (~ In R_stolen_block
       (held (outcome_trace (bringup_run true irq_install_fails))) ->
   lifo (outcome_trace (bringup_run true irq_install_fails)) = true).
Proof.
  apply (bringup_failure_rollback sample_header (sample_identity true true)
           irq_install_fails (loaded_machine zeroed_private) zeroed_private
           (-16) (outcome_machine (bringup_run true irq_install_fails))
           (outcome_trace (bringup_run true irq_install_fails))).
  - reflexivity.
  - vm_compute. reflexivity.
  - discriminate.
Defined.

Lemma load_failure_outcome_witness :
  (r_drm_alloc irq_install_fails = false /\ -16 = - ENOMEM
   /\ outcome_machine (load_run true irq_install_fails) = fresh_machine
   /\ outcome_trace (load_run true irq_install_fails) = [E_drm_alloc false])
  \/ (r_drm_alloc irq_install_fails = true /\
      last (outcome_trace (load_run true irq_install_fails)) (E_drm_alloc true)
        = E_drm_free /\
      dev_private (outcome_machine (load_run true irq_install_fails)) <> None /\
      forall r,
        In r (acquired (outcome_trace (load_run true irq_install_fails))) ->
        In r (released (outcome_trace (load_run true irq_install_fails)))
        \/ r = R_vram \/ r = R_stolen_block).
Proof.
  apply (load_failure_outcome sample_header (sample_identity true true)
           irq_install_fails fresh_machine (-16)
           (outcome_machine (load_run true irq_install_fails))
           (outcome_trace (load_run true irq_install_fails))).
  - vm_compute. reflexivity.
  - discriminate.
Defined.

Lemma load_without_modeset_witness :
  exists m' p',
    i915_driver_load sample_header (sample_identity true false) (all_fine 0x30)
      fresh_machine
    = Done 0 m' (load_prefix (sample_identity true false) (all_fine 0x30)) /\
    dev_private m' = Some p' /\
    mmio_map p' = snd (r_addmap (all_fine 0x30)) /\
    next_gem_seqno p' = 1 /\
    vram p' = None /\ wq p' = None /\ status_page_unset p' /\
    devname m' = devname fresh_machine /\
    mmio m' = mmio fresh_machine.
Proof.
  apply (load_without_modeset sample_header (sample_identity true false)
           (all_fine 0x30) fresh_machine).
  - reflexivity.
  - left. reflexivity.
  - reflexivity.
  - reflexivity.
Defined.

Lemma load_no_register_window_witness :
  exists m',
    i915_driver_load sample_header no_window_identity (all_fine 0x30)
      fresh_machine
    = Done (- ENODEV) m' [E_drm_alloc true; E_drm_free] /\
    dev_private m' <> None /\
    mmio m' = mmio fresh_machine.
Proof.
  apply (load_no_register_window sample_header no_window_identity
           (all_fine 0x30) fresh_machine); reflexivity.
Defined.

Lemma load_addmap_failure_witness :
  exists m' p',
    i915_driver_load sample_header (sample_identity true true) addmap_fails
      fresh_machine
    = Done (fst (r_addmap addmap_fails)) m'
        (E_drm_alloc true
         :: [E_read_stolen_base]
         ++ [E_addmap (resource_start (pdev (sample_identity true true)) 0)
                      (resource_len (pdev (sample_identity true true)) 0)
                      (fst (r_addmap addmap_fails));
             E_drm_free]) /\
    dev_private m' = Some p' /\
    mmio_map p' = None /\
    mmio m' = mmio fresh_machine.
Proof.
  apply (load_addmap_failure sample_header (sample_identity true true)
           addmap_fails fresh_machine).
  - reflexivity.
  - left. reflexivity.
  - discriminate.
Defined.

Lemma load_success_fields_witness :
  exists p',
    dev_private (outcome_machine (load_run true (all_fine 0x30))) = Some p' /\
    mmiobase p' = resource_start (pdev (sample_identity true true)) 0 /\
    mmiolen p' = resource_len (pdev (sample_identity true true)) 0 /\
    mmio_map p' = snd (r_addmap (all_fine 0x30)) /\
    cursor_needs_physical p' = false /\
    next_gem_seqno p' = 1 /\
    counters (outcome_machine (load_run true (all_fine 0x30)))
      = counters fresh_machine + 4 /\
    fb_base (outcome_machine (load_run true (all_fine 0x30)))
      = Z.land (resource_start (pdev (sample_identity true true)) 2)
               0xff000000 /\
    fb_base (outcome_machine (load_run true (all_fine 0x30))) mod 2 ^ 24 = 0.
Proof.
  apply (load_success_fields sample_header (sample_identity true true)
           (all_fine 0x30) fresh_machine
           (outcome_machine (load_run true (all_fine 0x30)))
           (outcome_trace (load_run true (all_fine 0x30)))).
  vm_compute. reflexivity.
Defined.

Lemma load_unload_round_trip_witness :
  exists m2 evs2,
    i915_driver_unload (sample_identity true true)
      (outcome_machine (load_run true (all_fine 0x30))) = Done 0 m2 evs2 /\
    released (outcome_trace (load_run true (all_fine 0x30))) = [] /\
    released evs2
    = remove resource_eq_dec R_devname
        (rev (acquired (outcome_trace (load_run true (all_fine 0x30))))) /\
    dev_private m2 = None /\
    devname m2 = devname (outcome_machine (load_run true (all_fine 0x30))) /\
    mmio m2 HWS_PGA = 0x1ffff000 /\ mmio m2 PRB0_CTL = 0.
Proof.
  apply (load_unload_round_trip sample_header (sample_identity true true)
           (all_fine 0x30) fresh_machine
           (outcome_machine (load_run true (all_fine 0x30)))
           (outcome_trace (load_run true (all_fine 0x30)))).
  - vm_compute. reflexivity.
  - vm_compute. discriminate.
  - vm_compute. discriminate.
Defined.

Lemma master_create_destroy_round_trip_witness :
  exists mp map,
    driver_priv
      (snd (fst (i915_master_create sample_sarea_h sample_master_env
                   sample_master))) = Some mp /\
    sarea mp = Some map /\ map = snd (r_sarea_addmap sample_master_env) /\
    sarea_priv mp = Some (map_handle map + sizeof_drm_sarea sample_sarea_h) /\
    snd (i915_master_create sample_sarea_h sample_master_env sample_master)
    = [ME_calloc true;
       ME_addmap 0 (Z.max (SAREA_MAX sample_sarea_h) PAGE_SIZE) 0;
       ME_store_pf_current_page
         (map_handle map + sizeof_drm_sarea sample_sarea_h) 0] /\
    PAGE_SIZE <= Z.max (SAREA_MAX sample_sarea_h) PAGE_SIZE /\
    SAREA_MAX sample_sarea_h <= Z.max (SAREA_MAX sample_sarea_h) PAGE_SIZE /\
    i915_master_destroy
      (snd (fst (i915_master_create sample_sarea_h sample_master_env
                   sample_master)))
      = ({| driver_priv := None |}, [ME_rmmap map; ME_free]) /\
    master_released
      (snd (i915_master_destroy
              (snd (fst (i915_master_create sample_sarea_h sample_master_env
                           sample_master)))))
      = rev (master_acquired
               (snd (i915_master_create sample_sarea_h sample_master_env
                       sample_master))).
Proof.
  apply (master_create_destroy_round_trip sample_sarea_h sample_master_env
           sample_master 0); reflexivity.
Defined.

Lemma master_create_addmap_failure_leaks_witness :
  exists evs,
    i915_master_create sample_sarea_h sample_master_env_nomap sample_master
    = (fst (r_sarea_addmap sample_master_env_nomap), sample_master, evs) /\
    master_acquired evs = [MR_private] /\
    master_released evs = [] /\
    (driver_priv sample_master = None ->
     i915_master_destroy sample_master = (sample_master, [])).
Proof.
  apply (master_create_addmap_failure_leaks sample_sarea_h
           sample_master_env_nomap sample_master).
  - reflexivity.
  - discriminate.
Defined.
